(** * PRD security assistant: a shallow embedding of [app.py]

    The application is a Streamlit script: every user interaction runs
    [main] from the top against a session-scoped store.  The embedding keeps
    that shape.  A [World] holds what the script can observe and change (the
    process environment, the files on disk, the session store) together with
    a trace of what it did (log records, requests sent to the model, elements
    put on the page).  Script code is written in a small state-and-exception
    monad [M]; [try_except] and [try_finally] are Python's.

    What lives outside the repository (the document parser, the hosted model,
    the JSON parser, pandas, the Markdown and PDF converters, and the
    operating system where it writes a file) is gathered in the record
    [Externals] and quantified over.  Building a client, a prompt
    or a chain is configuration only; the model is reached by [chain_invoke].

    Text is [string] with one character per code point below 256. *)

From Stdlib Require Import String Ascii List ZArith QArith Lia.
From stdpp Require Import base option list gmap strings pretty.

Local Open Scope string_scope.
Local Set Warnings "-register-all".

(** ** Python values *)

(** What [json.loads] can produce and what the session store and the widgets
    hold.  A dict lists its entries in insertion order, each key once.
    Fractional numbers are left out. *)
Inductive value : Type :=
| VNone
| VBool (b : bool)
| VInt (n : Z)
| VStr (s : string)
| VBytes (b : string)
| VList (items : list value)
| VDict (entries : list (string * value)).

(** Python truth value testing. *)
Definition truthy (v : value) : bool :=
  match v with
  | VNone => false
  | VBool b => b
  | VInt n => negb (n =? 0)%Z
  | VStr s => negb (String.eqb s "")
  | VBytes b => negb (String.eqb b "")
  | VList items => match items with [] => false | _ => true end
  | VDict entries => match entries with [] => false | _ => true end
  end.

Definition str_truthy (s : string) : bool := negb (String.eqb s "").

(** ** Exceptions and results *)

(** An instance of [Exception]; [str_exn] is Python's [str(e)]. *)
Inductive exn : Type := Exception (msg : string).

Definition str_exn (e : exn) : string := let 'Exception msg := e in msg.

(** The result of a call into a library. *)
Inductive result (A : Type) : Type :=
| Ok (a : A)
| Fail (e : exn).
Arguments Ok {A} a.
Arguments Fail {A} e.

(** How a piece of script code ends: it returns, it raises an [Exception],
    or it asks Streamlit to run the script again ([st.rerun], a control-flow
    signal that [except Exception] does not catch). *)
Inductive outcome (A : Type) : Type :=
| Return (a : A)
| Raise (e : exn)
| Rerun.
Arguments Return {A} a.
Arguments Raise {A} e.
Arguments Rerun {A}.

(** ** Data of the application *)

Record UploadedFile := { name : string; getbuffer : string }.

(** [ChatGoogleGenerativeAI(model=..., temperature=..., google_api_key=...)]:
    the client is its configuration, and building it sends nothing.  In
    [generate_report_narrative] the key is passed unchecked. *)
Record ChatModel := {
  model : string;
  temperature : Q;
  google_api_key : option string
}.

(** The two fixed instruction templates. *)
Inductive template : Type := RiskTemplate | NarrativeTemplate.

(** A formatted prompt: the template and the values given to its variables. *)
Record Prompt := {
  prompt_template : template;
  prompt_input : list (string * string)
}.

(** [prompt | llm | parser], with the parser as the function it applies to
    the model's raw answer. *)
Record Chain (A : Type) := {
  chain_prompt : template;
  chain_llm : ChatModel;
  chain_parser : string -> result A
}.
Arguments chain_prompt {A} c.
Arguments chain_llm {A} c.
Arguments chain_parser {A} c.

(** [pd.DataFrame]: column labels and, per row, one cell per column
    ([None] is a missing value). *)
Record DataFrame := {
  columns : list string;
  rows : list (list (option value))
}.

(** ** Trace *)

Inductive level : Type := INFO | WARNING | ERROR.

(** The three buttons: "Perform Security Assessment", "Generate Full Report"
    and "<- Back to Assessment". *)
Inductive button : Type := BtnAssess | BtnGenerate | BtnBack.

Global Instance button_eq_dec : EqDecision button.
Proof. solve_decision. Defined.

(** The fixed fragments passed to [st.markdown(..., unsafe_allow_html=True)]:
    the style sheet, the page header and the footer. *)
Inductive html : Type := HtmlStyle | HtmlHeader | HtmlFooter.

(** The download buttons, by file name. *)
Inductive download : Type := DlCsv | DlMarkdown | DlPdf.

Inductive element : Type :=
| StWrite (s : string)
| StSetPageConfig
| StHtml (h : html)
| StMarkdown (body : value)
| StFileUploader
| StButton (b : button)
| StSpinner (msg : string)
| StError (msg : string)
| StWarning (msg : string)
| StSuccess (msg : string)
| StSubheader (msg : string)
| StDataframe (df : DataFrame)
| StColumns (n : nat)
| StDownloadButton (d : download) (data : value).

Inductive event : Type :=
| Log (l : level) (msg : string)
| Request (llm : ChatModel) (p : Prompt)
| Ui (e : element).

(** ** The world and the script monad *)

Record World := {
  environ : gmap string string;
  dirs : gset string;
  files : gmap string string;
  session_state : gmap string value;
  trace : list event
}.

Definition M (A : Type) : Type := World -> outcome A * World.

Definition ret {A} (a : A) : M A := fun w => (Return a, w).

Definition bind {A B} (m : M A) (k : A -> M B) : M B :=
  fun w =>
    match m w with
    | (Return a, w') => k a w'
    | (Raise e, w') => (Raise e, w')
    | (Rerun, w') => (Rerun, w')
    end.

Definition raise {A} (e : exn) : M A := fun w => (Raise e, w).

Declare Scope script_scope.
Delimit Scope script_scope with script.
Bind Scope script_scope with M.
Notation "x <- m ; k" := (bind m (fun x => k))
  (at level 100, m at next level, k at level 200, right associativity) : script_scope.
Notation "m ;; k" := (bind m (fun _ => k))
  (at level 100, k at level 200, right associativity) : script_scope.
Local Open Scope script_scope.

(** [try: body / except Exception as e: handler e] *)
Definition try_except {A} (body : M A) (handler : exn -> M A) : M A :=
  fun w =>
    match body w with
    | (Raise e, w') => handler e w'
    | r => r
    end.

(** [try: body / finally: cleanup]: the cleanup runs on every exit of the
    body; an exit of its own replaces the body's. *)
Definition try_finally {A} (body : M A) (cleanup : M unit) : M A :=
  fun w =>
    let '(r, w') := body w in
    match cleanup w' with
    | (Return _, w'') => (r, w'')
    | (Raise e, w'') => (Raise e, w'')
    | (Rerun, w'') => (Rerun, w'')
    end.

Definition lift_result {A} (r : result A) : M A :=
  match r with
  | Ok a => ret a
  | Fail e => raise e
  end.

(** The world after the events [evs]; nothing else changes. *)
Definition add_events (evs : list event) (w : World) : World :=
  {| environ := environ w; dirs := dirs w; files := files w;
     session_state := session_state w; trace := trace w ++ evs |}.

Definition emit (ev : event) : M unit :=
  fun w => (Return tt, add_events [ev] w).

Definition logger_info (msg : string) : M unit := emit (Log INFO msg).
Definition logger_warning (msg : string) : M unit := emit (Log WARNING msg).
Definition logger_error (msg : string) : M unit := emit (Log ERROR msg).
Definition st (e : element) : M unit := emit (Ui e).

(** [os.getenv(key)] and [os.getenv(key, default)] *)
Definition os_getenv (key : string) : M (option string) :=
  fun w => (Return (environ w !! key), w).

Definition os_getenv_default (key fallback : string) : M string :=
  fun w => (Return (default fallback (environ w !! key)), w).

(** ** Files *)

Definition set_files (f : gmap string string -> gmap string string) (w : World) : World :=
  {| environ := environ w; dirs := dirs w; files := f (files w);
     session_state := session_state w; trace := trace w |}.

(** [os.makedirs(d, exist_ok=True)] *)
Definition os_makedirs (d : string) : M unit :=
  fun w =>
    (Return tt,
     {| environ := environ w; dirs := {[d]} ∪ dirs w; files := files w;
        session_state := session_state w; trace := trace w |}).

(** POSIX [os.path.join] of two components. *)
Definition ends_with_slash (a : string) : bool :=
  match rev (list_ascii_of_string a) with
  | c :: _ => Ascii.eqb c "/"
  | [] => false
  end.

Definition starts_with_slash (b : string) : bool :=
  match b with
  | String c _ => Ascii.eqb c "/"
  | EmptyString => false
  end.

Definition os_path_join (a b : string) : string :=
  if starts_with_slash b then b
  else if String.eqb a "" || ends_with_slash a then a +:+ b
  else a +:+ "/" +:+ b.

(** Where [load_docx] keeps its copy of an upload. *)
Definition temp_path (uploaded_file : UploadedFile) : string :=
  os_path_join "temp" (name uploaded_file).

(** How [with open(path, "wb") as f: f.write(data)] ends.
    - [Written]: the file holds [data];
    - [OpenFailed e]: [open] raised [e] (a missing or read-only directory,
      a path that names a directory): no file is created or changed;
    - [WriteFailed partial e]: [open] created or truncated the file, then
      writing or closing it raised [e] (a full disk, a quota): the file is left
      holding [partial]. *)
Inductive write_result : Type :=
| Written
| OpenFailed (e : exn)
| WriteFailed (partial : string) (e : exn).

Definition os_path_exists (path : string) : M bool :=
  fun w =>
    (Return (bool_decide (is_Some (files w !! path)) || bool_decide (path ∈ dirs w)), w).

Definition os_remove (path : string) : M unit :=
  fun w =>
    match files w !! path with
    | Some _ => (Return tt, set_files (delete path) w)
    | None => (Raise (Exception ("No such file: " +:+ path)), w)
    end.

(** ** The session store *)

Definition set_session (f : gmap string value -> gmap string value) (w : World) : World :=
  {| environ := environ w; dirs := dirs w; files := files w;
     session_state := f (session_state w); trace := trace w |}.

(** ['key' in st.session_state] *)
Definition session_contains (key : string) : M bool :=
  fun w => (Return (bool_decide (is_Some (session_state w !! key))), w).

(** [st.session_state.key]: an [AttributeError] when the key is absent. *)
Definition session_get (key : string) : M value :=
  fun w =>
    match session_state w !! key with
    | Some v => (Return v, w)
    | None => (Raise (Exception ("st.session_state has no attribute " +:+ key)), w)
    end.

(** [st.session_state.key = v] *)
Definition session_set (key : string) (v : value) : M unit :=
  fun w => (Return tt, set_session (insert key v) w).

(** [del st.session_state.key] *)
Definition session_del (key : string) : M unit :=
  fun w =>
    match session_state w !! key with
    | Some _ => (Return tt, set_session (delete key) w)
    | None => (Raise (Exception ("st.session_state has no attribute " +:+ key)), w)
    end.

(** ** Strings *)

Definition LF : string := String "010"%char EmptyString.

(** [s.replace(old, new)] for a non-empty [old]: occurrences are found left
    to right and do not overlap. [skip] counts the characters of a match that
    are still to be dropped. *)
Fixpoint replace_from (old new : string) (skip : nat) (s : string) : string :=
  match s with
  | EmptyString => EmptyString
  | String c s' =>
      match skip with
      | S k => replace_from old new k s'
      | O =>
          if String.prefix old s
          then new +:+ replace_from old new (String.length old - 1) s'
          else String c (replace_from old new 0 s')
      end
  end.

Definition replace (old new s : string) : string := replace_from old new 0 s.

(** The characters [str.strip()] removes, among code points below 256. *)
Definition isspace (c : ascii) : bool :=
  let n := nat_of_ascii c in
  ((9 <=? n)%nat && (n <=? 13)%nat) || ((28 <=? n)%nat && (n <=? 32)%nat)
  || (n =? 133)%nat || (n =? 160)%nat.

Fixpoint lstrip (s : string) : string :=
  match s with
  | String c s' => if isspace c then lstrip s' else s
  | EmptyString => EmptyString
  end.

Definition rstrip (s : string) : string :=
  string_of_list_ascii
    (rev (list_ascii_of_string (lstrip (string_of_list_ascii (rev (list_ascii_of_string s)))))).

Definition strip (s : string) : string := rstrip (lstrip s).

(** ** Libraries *)

(** [langchain_core.documents.Document] *)
Record Document := { page_content : string }.

(** Behaviour of the libraries the script calls.
    - [docx2txt]: what [Docx2txtLoader(path).load()] makes of a file's bytes;
    - [llm_generate n llm p]: the model's answer to the request number [n]
      of the session (its answers need not repeat);
    - [json_loads]: [JsonOutputParser] on the raw answer;
    - [py_str]: Python's [str] of a parsed value;
    - [DataFrame_other]: [pd.DataFrame] on anything but a list of dicts;
    - [to_markdown], [to_csv]: [df.to_markdown(index=False)] and
      [df.to_csv(index=False)];
    - [markdown_markdown]: [markdown.markdown(text, extensions=['tables'])];
    - [pisa_CreatePDF]: the bytes written to [dest] and the [err] count of
      the returned status;
    - [file_write path data]: how the operating system serves the writing of
      [data] to a new file at [path]. *)
Record Externals := {
  file_write : string -> string -> write_result;
  docx2txt : string -> result (list Document);
  llm_generate : nat -> ChatModel -> Prompt -> result string;
  json_loads : string -> result value;
  py_str : value -> string;
  DataFrame_other : value -> result DataFrame;
  to_markdown : DataFrame -> string;
  to_csv : DataFrame -> string;
  markdown_markdown : value -> result string;
  pisa_CreatePDF : string -> string * Z
}.

(** ** pandas *)

(** The column labels of [pd.DataFrame(records)]: the keys of the records in
    the order in which they first appear. *)
Definition add_label (labels : list string) (k : string) : list string :=
  if bool_decide (k ∈ labels) then labels else labels ++ [k].

Definition record_labels (records : list (list (string * value))) : list string :=
  fold_left (fun labels r => fold_left add_label (map fst r) labels) records [].

Fixpoint dict_get (k : string) (d : list (string * value)) : option value :=
  match d with
  | [] => None
  | (k', v) :: d' => if String.eqb k k' then Some v else dict_get k d'
  end.

Definition frame_of_records (records : list (list (string * value))) : DataFrame :=
  let labels := record_labels records in
  {| columns := labels;
     rows := map (fun r => map (fun k => dict_get k r) labels) records |}.

Definition as_record (v : value) : option (list (string * value)) :=
  match v with
  | VDict d => Some d
  | _ => None
  end.

Definition as_records (v : value) : option (list (list (string * value))) :=
  match v with
  | VList items => mapM as_record items
  | _ => None
  end.

(** [str.encode('utf-8')] on code points below 256. *)
Definition encode_char (c : ascii) : list ascii :=
  let n := N_of_ascii c in
  if (n <? 128)%N then [c]
  else [ascii_of_N (192 + N.shiftr n 6); ascii_of_N (128 + N.land n 63)].

Definition encode_utf8 (s : string) : string :=
  string_of_list_ascii (flat_map encode_char (list_ascii_of_string s)).

(** The page around the report's HTML in [render_report_page]. *)
Definition html_with_style (html_text : string) : string :=
  "
            <html>
            <head>
            <style>
                body { font-family: Helvetica, sans-serif; font-size: 12px; }
                h1 { color: #333; font-size: 24px; }
                h2 { color: #555; font-size: 18px; margin-top: 20px; }
                table { width: 100%; border-collapse: collapse; margin-top: 10px; }
                th, td { border: 1px solid #ddd; padding: 8px; text-align: left; }
                th { background-color: #f2f2f2; }
            </style>
            </head>
            <body>
            " +:+ html_text +:+ "
            </body>
            </html>
            ".

(** ** The script *)

(** The widget values Streamlit hands to one run of the script: the query
    string, the file in the uploader and the button pressed, if any. *)
Record Widgets := {
  query_params : gmap string string;
  file_uploader : option UploadedFile;
  clicked : option button
}.

(** [st.rerun()] *)
Definition st_rerun {A} : M A := fun w => (Rerun, w).

(** [st.button(label)]: draws the button and tells whether it was pressed. *)
Definition st_button (b : button) (ws : Widgets) : M bool :=
  st (StButton b) ;; ret (bool_decide (clicked ws = Some b)).

Definition is_request (ev : event) : bool :=
  match ev with
  | Request _ _ => true
  | _ => false
  end.

(** The requests sent to the model so far. *)
Definition requests (t : list event) : list event := List.filter is_request t.

Section Script.

Variable X : Externals.

(** [str(v)] *)
Definition str (v : value) : string :=
  match v with
  | VStr s => s
  | _ => py_str X v
  end.

(** [pd.DataFrame(v)] *)
Definition pd_DataFrame (v : value) : result DataFrame :=
  match as_records v with
  | Some records => Ok (frame_of_records records)
  | None => DataFrame_other X v
  end.

(** [chain.invoke(input)]: format the prompt, send it to the model, parse the
    raw answer. *)
Definition chain_invoke {A} (chain : Chain A) (input : list (string * string)) : M A :=
  fun w =>
    let p := {| prompt_template := chain_prompt chain; prompt_input := input |} in
    (emit (Request (chain_llm chain) p) ;;
     raw <- lift_result (llm_generate X (length (requests (trace w))) (chain_llm chain) p) ;
     lift_result (chain_parser chain raw)) w.

Definition convert_to_pdf (source_html : string) : M value :=
  let '(result, err) := pisa_CreatePDF X source_html in
  if negb (err =? 0)%Z then
    logger_error ("PDF generation error: " +:+ pretty err) ;;
    ret VNone
  else ret (VBytes result).

(** [with open(path, "wb") as f: f.write(data)] *)
Definition write_file (path data : string) : M unit :=
  fun w =>
    match file_write X path data with
    | Written => (Return tt, set_files (insert path data) w)
    | OpenFailed e => (Raise e, w)
    | WriteFailed partial e => (Raise e, set_files (insert path partial) w)
    end.

(** The first part of [load_docx] (lines 57 to 64): the upload is copied to
    its temporary path.  This happens before the [try] is entered. *)
Definition save_to_temp (uploaded_file : UploadedFile) : M string :=
  os_makedirs "temp" ;;
  let temp_path := temp_path uploaded_file in
  logger_info ("Saving uploaded file to temporary path: " +:+ temp_path) ;;
  write_file temp_path (getbuffer uploaded_file) ;;
  ret temp_path.

Definition load_docx (uploaded_file : UploadedFile) : M string :=
  temp_path <- save_to_temp uploaded_file ;
  try_finally
    (try_except
       (logger_info "Loading document content..." ;;
        data <- (fun w =>
                   match files w !! temp_path with
                   | Some bytes => lift_result (docx2txt X bytes) w
                   | None => (Raise (Exception ("File path " +:+ temp_path +:+ " is not a valid file or url")), w)
                   end) ;
        content <- match data with
                   | d :: _ => ret (page_content d)
                   | [] => raise (Exception "list index out of range")
                   end ;
        logger_info "Document content loaded successfully." ;;
        ret content)
       (fun e =>
          logger_error ("Error loading document: " +:+ str_exn e) ;;
          raise e))
    (present <- os_path_exists temp_path ;
     if present then
       os_remove temp_path ;;
       logger_info ("Cleaned up temporary file: " +:+ temp_path)
     else ret tt).

Definition analyze_risk (text_content : string) : M value :=
  logger_info "Starting risk assessment analysis..." ;;
  model_name <- os_getenv_default "MODELAI" "gemini-flash-latest" ;
  api_key <- os_getenv "GOOGLE_API_KEY" ;
  if negb (from_option str_truthy false api_key) then
    logger_error "GOOGLE_API_KEY not found." ;;
    st (StError "Error: GOOGLE_API_KEY not found in environment variables.") ;;
    ret (VList [])
  else
    let llm := {| model := model_name; temperature := 3 # 10; google_api_key := api_key |} in
    let chain := {| chain_prompt := RiskTemplate; chain_llm := llm;
                    chain_parser := json_loads X |} in
    try_except
      (response <- chain_invoke chain [("text", text_content)] ;
       logger_info "Risk assessment analysis completed successfully." ;;
       ret response)
      (fun e =>
         logger_error ("Error during risk assessment analysis: " +:+ str_exn e) ;;
         st (StError ("Error parsing AI response: " +:+ str_exn e)) ;;
         ret (VList [])).

Definition generate_report_narrative (text_content risks_data : value) : M string :=
  logger_info "Generating report narrative..." ;;
  model_name <- os_getenv_default "MODELAI" "gemini-flash-latest" ;
  api_key <- os_getenv "GOOGLE_API_KEY" ;
  let llm := {| model := model_name; temperature := 5 # 10; google_api_key := api_key |} in
  let chain := {| chain_prompt := NarrativeTemplate; chain_llm := llm;
                  chain_parser := Ok |} in
  try_except
    (response <- chain_invoke chain [("text", str text_content); ("risks", str risks_data)] ;
     let cleaned_response := strip (replace "```" "" (replace "```markdown" "" response)) in
     ret cleaned_response)
    (fun e =>
       logger_error ("Error generating report narrative: " +:+ str_exn e) ;;
       ret "Error generating report narrative.").

(** The report as [render_report_page] puts it together from the narrative
    and the stored records (lines 329 to 333). *)
Definition assemble_report (narrative : string) (risk_data : value) : result string :=
  match pd_DataFrame risk_data with
  | Ok df =>
      let table_md := to_markdown X df in
      Ok (narrative +:+ LF +:+ LF +:+ "## Risk Assessment" +:+ LF +:+ LF +:+ table_md)
  | Fail e => Fail e
  end.

(** [v == s] for a string literal [s] *)
Definition is_str (s : string) (v : value) : bool :=
  match v with
  | VStr s' => String.eqb s' s
  | _ => false
  end.

Definition is_None (v : value) : bool :=
  match v with
  | VNone => true
  | _ => false
  end.

Definition render_home_page (ws : Widgets) : M unit :=
  st (StHtml HtmlHeader) ;;
  st StFileUploader ;;
  let uploaded_file := file_uploader ws in
  pressed <- st_button BtnAssess ws ;
  (if pressed then
     match uploaded_file with
     | Some f =>
         logger_info ("User initiated assessment for file: " +:+ name f) ;;
         st (StSpinner "Analyzing security risks...") ;;
         try_except
           (content <- load_docx f ;
            session_set "original_text" (VStr content) ;;
            if negb (str_truthy content) then
              logger_warning "No content extracted from document." ;;
              st (StError "Could not extract text from the document.")
            else
              risks <- analyze_risk content ;
              session_set "risk_data" risks ;;
              present <- session_contains "full_report_md" ;
              if present then session_del "full_report_md" else ret tt)
           (fun e => st (StError ("An error occurred: " +:+ str_exn e)))
     | None =>
         logger_warning "User attempted to perform assessment without uploading a file." ;;
         st (StWarning "Please upload a DOCX file first.")
     end
   else ret tt) ;;
  risk_data <- session_get "risk_data" ;
  (if truthy risk_data then
     st (StSuccess "Assessment Complete!") ;;
     risk_data <- session_get "risk_data" ;
     df <- lift_result (pd_DataFrame risk_data) ;
     st (StSubheader "Risk Assessment Table") ;;
     st (StDataframe df) ;;
     st (StColumns 2) ;;
     let csv := VBytes (encode_utf8 (to_csv X df)) in
     st (StDownloadButton DlCsv csv) ;;
     pressed <- st_button BtnGenerate ws ;
     if pressed then
       session_set "page" (VStr "report") ;;
       st_rerun
     else ret tt
   else ret tt) ;;
  st (StHtml HtmlFooter).

(** The [on_click] callback of the back button. *)
Definition back_on_click : M unit := session_set "page" (VStr "home").

Definition render_report_page : M unit :=
  st (StButton BtnBack) ;;
  risk_data <- session_get "risk_data" ;
  has_data <- (if truthy risk_data then
                 original_text <- session_get "original_text" ;
                 ret (truthy original_text)
               else ret false) ;
  if has_data then
    present <- session_contains "full_report_md" ;
    missing <- (if negb present then ret true
                else
                  full_report_md <- session_get "full_report_md" ;
                  ret (is_None full_report_md)) ;
    (if missing then
       st (StSpinner "Generating narrative report...") ;;
       original_text <- session_get "original_text" ;
       risk_data <- session_get "risk_data" ;
       narrative <- generate_report_narrative original_text risk_data ;
       risk_data <- session_get "risk_data" ;
       full <- lift_result (assemble_report narrative risk_data) ;
       session_set "full_report_md" (VStr full)
     else ret tt) ;;
    full_report_md <- session_get "full_report_md" ;
    st (StMarkdown full_report_md) ;;
    st (StColumns 2) ;;
    full_report_md <- session_get "full_report_md" ;
    st (StDownloadButton DlMarkdown full_report_md) ;;
    full_report_md <- session_get "full_report_md" ;
    html_text <- lift_result (markdown_markdown X full_report_md) ;
    pdf_bytes <- convert_to_pdf (html_with_style html_text) ;
    if truthy pdf_bytes then st (StDownloadButton DlPdf pdf_bytes)
    else st (StError "Failed to generate PDF.")
  else st (StError "No data available. Please perform an assessment first.").

Definition init_session (key : string) (v : value) : M unit :=
  present <- session_contains key ;
  if negb present then session_set key v else ret tt.

Definition main (ws : Widgets) : M unit :=
  logger_info "Application starting..." ;;
  if bool_decide ("healthz" ∈ dom (query_params ws)) then
    st (StWrite "OK")
  else
    logger_info "Application starting..." ;;
    st StSetPageConfig ;;
    st (StHtml HtmlStyle) ;;
    init_session "page" (VStr "home") ;;
    init_session "risk_data" VNone ;;
    init_session "original_text" VNone ;;
    page <- session_get "page" ;
    if is_str "home" page then render_home_page ws
    else
      page <- session_get "page" ;
      if is_str "report" page then render_report_page
      else ret tt.

(** The widgets once the pressed button has been served. *)
Definition released (ws : Widgets) : Widgets :=
  {| query_params := query_params ws; file_uploader := file_uploader ws; clicked := None |}.

(** One interaction as Streamlit serves it: the callback of the pressed
    button runs first, then the script; when the script asks for a rerun it is
    run once more with no button pressed. *)
Definition interaction (ws : Widgets) : M unit :=
  fun w =>
    let w0 := if bool_decide (clicked ws = Some BtnBack) then snd (back_on_click w) else w in
    match main ws w0 with
    | (Rerun, w1) => main (released ws) w1
    | r => r
    end.

(** ** Vocabulary for the properties *)

(** The client and the prompt of [analyze_risk] in a world. *)
Definition risk_llm (w : World) : ChatModel :=
  {| model := default "gemini-flash-latest" (environ w !! "MODELAI");
     temperature := 3 # 10;
     google_api_key := environ w !! "GOOGLE_API_KEY" |}.

Definition risk_prompt (text_content : string) : Prompt :=
  {| prompt_template := RiskTemplate; prompt_input := [("text", text_content)] |}.

(** [GOOGLE_API_KEY] is set and not empty. *)
Definition has_api_key (w : World) : bool :=
  from_option str_truthy false (environ w !! "GOOGLE_API_KEY").

(** The model's answer to the next request of [analyze_risk]. *)
Definition risk_reply (text_content : string) (w : World) : result string :=
  llm_generate X (length (requests (trace w))) (risk_llm w) (risk_prompt text_content).

(** The value [analyze_risk] returns for a text; it depends on the world
    through the environment and the number of requests sent so far. *)
Definition analysis (text_content : string) (w : World) : value :=
  if has_api_key w then
    match risk_reply text_content w with
    | Ok raw => match json_loads X raw with
                | Ok v => v
                | Fail _ => VList []
                end
    | Fail _ => VList []
    end
  else VList [].

(** The client and the prompt of [generate_report_narrative], and the
    model's answer to its next request. *)
Definition narrative_llm (w : World) : ChatModel :=
  {| model := default "gemini-flash-latest" (environ w !! "MODELAI");
     temperature := 5 # 10;
     google_api_key := environ w !! "GOOGLE_API_KEY" |}.

Definition narrative_prompt (text_content risks_data : value) : Prompt :=
  {| prompt_template := NarrativeTemplate;
     prompt_input := [("text", str text_content); ("risks", str risks_data)] |}.

Definition narrative_reply (text_content risks_data : value) (w : World) : result string :=
  llm_generate X (length (requests (trace w))) (narrative_llm w)
    (narrative_prompt text_content risks_data).

(** The narrative [generate_report_narrative] makes of the model's reply. *)
Definition narrative_of (reply : result string) : string :=
  match reply with
  | Ok response => strip (replace "```" "" (replace "```markdown" "" response))
  | Fail _ => "Error generating report narrative."
  end.

(** What the first rendering of a report adds to the trace before the
    report is assembled. *)
Definition narrative_events (original_text risk_data : value) (w : World) : list event :=
  [Ui (StButton BtnBack);
   Ui (StSpinner "Generating narrative report...");
   Log INFO "Generating report narrative...";
   Request (narrative_llm w) (narrative_prompt original_text risk_data)]
  ++ match narrative_reply original_text risk_data w with
     | Ok _ => []
     | Fail e => [Log ERROR ("Error generating report narrative: " +:+ str_exn e)]
     end.


(** What [convert_to_pdf] returns and logs for a page. *)
Definition pdf_bytes_of (source_html : string) : value :=
  let '(result, err) := pisa_CreatePDF X source_html in
  if negb (err =? 0)%Z then VNone else VBytes result.

Definition pdf_log_of (source_html : string) : list event :=
  let '(result, err) := pisa_CreatePDF X source_html in
  if negb (err =? 0)%Z then [Log ERROR ("PDF generation error: " +:+ pretty err)] else [].

(** The elements of the report page below the back button once the report
    [full] is in the store and [html_text] is its HTML. *)
Definition report_view (full : value) (html_text : string) : list event :=
  [Ui (StMarkdown full); Ui (StColumns 2); Ui (StDownloadButton DlMarkdown full)]
  ++ pdf_log_of (html_with_style html_text)
  ++ [if truthy (pdf_bytes_of (html_with_style html_text))
      then Ui (StDownloadButton DlPdf (pdf_bytes_of (html_with_style html_text)))
      else Ui (StError "Failed to generate PDF.")].

(** The store holds risk data and the text it was derived from. *)
Definition has_data (w : World) (risk_data original_text : value) : Prop :=
  session_state w !! "risk_data" = Some risk_data /\ truthy risk_data = true /\
  session_state w !! "original_text" = Some original_text /\ truthy original_text = true.


(** The store holds a report that the page can show. *)
Definition memoized (w : World) (full : value) (html_text : string) : Prop :=
  session_state w !! "full_report_md" = Some full /\
  is_None full = false /\
  markdown_markdown X full = Ok html_text.

End Script.

(** The fields of a Risk Record, in the order the prompt of [analyze_risk]
    lists them. *)
Definition risk_record_fields : list string :=
  ["Feature Name"; "Threat Type"; "Description"; "Risk"; "Recommendation"; "Risk Level"].

(** ** Sample inputs *)

(** Libraries with a scripted model: [reply n] answers the request number
    [n], every answer parses to [parsed].  Files are written without error.
    The parser rejects the empty file and otherwise reads the bytes as the
    text of one document; the table is rendered as its header row. *)
Definition sample_externals (reply : nat -> result string) (parsed : result value) : Externals :=
  {| file_write := fun _ _ => Written;
     docx2txt := fun bytes =>
       if String.eqb bytes "" then Fail (Exception "File is not a zip file")
       else Ok [{| page_content := bytes |}];
     llm_generate := fun n _ _ => reply n;
     json_loads := fun _ => parsed;
     py_str := fun _ => "<object>";
     DataFrame_other := fun _ => Fail (Exception "DataFrame constructor not properly called!");
     to_markdown := fun df => "| " +:+ String.concat " | " (columns df) +:+ " |";
     to_csv := fun df => String.concat "," (columns df);
     markdown_markdown := fun v =>
       match v with
       | VStr s => Ok ("<p>" +:+ s +:+ "</p>")
       | _ => Fail (Exception "expected a string")
       end;
     pisa_CreatePDF := fun _ => ("%PDF-1.4", 0%Z) |}.

Definition sample_world (env : gmap string string) (store : gmap string value) : World :=
  {| environ := env; dirs := ∅; files := ∅; session_state := store; trace := [] |}.

Definition with_key : gmap string string := {["GOOGLE_API_KEY" := "secret"]}.

Definition sample_text : string :=
  "System allows anonymous password reset via email link.".

Definition sample_record : list (string * value) :=
  [("Feature Name", VStr "Password Reset"); ("Threat Type", VStr "Spoofing");
   ("Description", VStr "..."); ("Risk", VStr "..."); ("Recommendation", VStr "...");
   ("Risk Level", VStr "High")].

(** The same record as a model may well return it, risk level first. *)
Definition reordered_record : list (string * value) :=
  [("Risk Level", VStr "High"); ("Feature Name", VStr "Password Reset");
   ("Threat Type", VStr "Spoofing"); ("Description", VStr "..."); ("Risk", VStr "...");
   ("Recommendation", VStr "...")].

Definition sample_upload : UploadedFile :=
  {| name := "prd.docx"; getbuffer := sample_text |}.

(** Another document uploaded under the same name. *)
Definition other_upload : UploadedFile :=
  {| name := "prd.docx"; getbuffer := "Admins can export all user records." |}.

Definition empty_upload : UploadedFile := {| name := "empty.docx"; getbuffer := "" |}.

Definition press (b : option button) (f : option UploadedFile) : Widgets :=
  {| query_params := ∅; file_uploader := f; clicked := b |}.

(** A session on the report page with no risk data. *)
Definition report_no_data : World :=
  sample_world with_key
    (<["page" := VStr "report"]> (<["risk_data" := VNone]> (<["original_text" := VNone]> ∅))).

(** A session on the report page after an assessment. *)
Definition report_ready : World :=
  sample_world with_key
    (<["page" := VStr "report"]>
       (<["risk_data" := VList [VDict sample_record]]>
          (<["original_text" := VStr sample_text]> ∅))).

(** A session on the home page that holds an earlier assessment and its
    report. *)
Definition home_with_report : World :=
  sample_world with_key
    (<["page" := VStr "home"]>
       (<["risk_data" := VList [VDict reordered_record]]>
          (<["original_text" := VStr "Admins can export all user records."]>
             (<["full_report_md" := VStr "old report"]> ∅)))).

(** A model that is unreachable, one whose answer does not parse, one that
    answers with a fenced narrative. *)
Definition unreachable_model : Externals :=
  sample_externals (fun _ => Fail (Exception "503 Service Unavailable")) (Ok VNone).

Definition unparsable_model : Externals :=
  sample_externals (fun _ => Ok "Sure! Here are the risks:")
    (Fail (Exception "Invalid json output")).

Definition fenced_model : Externals :=
  sample_externals
    (fun _ => Ok ("```markdown" +:+ LF +:+ "# Security Assessment Report" +:+ LF +:+ "```"))
    (Ok (VList [VDict sample_record])).

(** A model whose answer parses to something that is no list of records. *)
Definition odd_model : Externals :=
  sample_externals (fun _ => Ok "{}") (Ok (VDict [("Threat Type", VStr "Phishing")])).


(** ** Vocabulary for further properties *)

(** [pat in s] *)
Fixpoint occurs (pat s : string) {struct s} : bool :=
  match s with
  | EmptyString => String.prefix pat s
  | String _ s' => String.prefix pat s || occurs pat s'
  end.

(** The text begins, or ends, with a character that [str.strip()] removes. *)
Definition starts_with_space (s : string) : bool :=
  match s with
  | String c _ => isspace c
  | EmptyString => false
  end.

Definition ends_with_space (s : string) : bool :=
  match rev (list_ascii_of_string s) with
  | c :: _ => isspace c
  | [] => false
  end.

(** ** Further sample inputs *)

(** Libraries whose parser finds one document with no text in it. *)
Definition blank_model : Externals :=
  {| file_write := file_write fenced_model;
     docx2txt := fun _ => Ok [{| page_content := "" |}];
     llm_generate := llm_generate fenced_model;
     json_loads := json_loads fenced_model;
     py_str := py_str fenced_model;
     DataFrame_other := DataFrame_other fenced_model;
     to_markdown := to_markdown fenced_model;
     to_csv := to_csv fenced_model;
     markdown_markdown := markdown_markdown fenced_model;
     pisa_CreatePDF := pisa_CreatePDF fenced_model |}.

(** A session whose risk data is a dict, which the sample pandas rejects. *)
Definition odd_store (page : string) : World :=
  sample_world with_key
    (<["page" := VStr page]>
       (<["risk_data" := VDict [("Threat Type", VStr "Phishing")]]>
          (<["original_text" := VStr sample_text]> ∅))).

(** A session on the home page before any assessment. *)
Definition home_no_data : World :=
  sample_world with_key
    (<["page" := VStr "home"]> (<["risk_data" := VNone]> (<["original_text" := VNone]> ∅))).

(** Libraries on a disk that is full: the file is created, writing to it
    fails and leaves it empty.  And libraries on a disk that refuses to
    create the file. *)
Definition with_file_write (fw : string -> string -> write_result) (X : Externals) : Externals :=
  {| file_write := fw;
     docx2txt := docx2txt X;
     llm_generate := llm_generate X;
     json_loads := json_loads X;
     py_str := py_str X;
     DataFrame_other := DataFrame_other X;
     to_markdown := to_markdown X;
     to_csv := to_csv X;
     markdown_markdown := markdown_markdown X;
     pisa_CreatePDF := pisa_CreatePDF X |}.

Definition full_disk_model : Externals :=
  with_file_write
    (fun _ _ => WriteFailed "" (Exception "[Errno 28] No space left on device"))
    fenced_model.

Definition read_only_model : Externals :=
  with_file_write
    (fun path _ => OpenFailed (Exception ("[Errno 30] Read-only file system: '" +:+ path +:+ "'")))
    fenced_model.

(** An upload whose name is an absolute path. *)
Definition absolute_upload : UploadedFile :=
  {| name := "/srv/prd.docx"; getbuffer := sample_text |}.

(** A session on the report page with the report in the store. *)
Definition report_shown : World :=
  sample_world with_key
    (<["page" := VStr "report"]>
       (<["risk_data" := VList [VDict sample_record]]>
          (<["original_text" := VStr sample_text]>
             (<["full_report_md" := VStr "# Security Assessment Report"]> ∅)))).

(** * Properties *)

(** ** Running script code symbolically *)

Ltac run_script :=
  unfold st, logger_info, logger_warning, logger_error, emit, ret, raise,
    os_getenv, os_getenv_default, os_makedirs, write_file, os_path_exists,
    session_contains, session_set, st_rerun, st_button, init_session,
    session_get, session_del;
  cbn [bind try_except try_finally lift_result ret raise os_remove
       set_files set_session
       chain_prompt chain_llm chain_parser negb orb andb
       environ dirs files session_state trace fst snd add_events].

Lemma is_Some_Some_true {A} (x : A) : bool_decide (is_Some (Some x)) = true.
Proof. reflexivity. Qed.

Lemma is_Some_None_false {A} : bool_decide (is_Some (@None A)) = false.
Proof. reflexivity. Qed.

Ltac exec :=
  repeat (progress (run_script;
                    rewrite ?is_Some_Some_true, ?is_Some_None_false,
                      ?lookup_insert_eq, ?lookup_delete_eq;
                    repeat match goal with
                           | H : ?l = _ |- context [?l] => rewrite H
                           end)).

Lemma add_events_app (a b : list event) (w : World) :
  add_events b (add_events a w) = add_events (a ++ b) w.
Proof. unfold add_events; cbn. by rewrite app_assoc. Qed.

Ltac tidy_world := rewrite ?add_events_app; cbn [app]; try reflexivity.

Lemma requests_app (a b : list event) :
  requests (a ++ b) = (requests a ++ requests b)%list.
Proof. unfold requests. apply List.filter_app. Qed.

Lemma requests_add_events (evs : list event) (w : World) :
  requests (trace (add_events evs w)) = (requests (trace w) ++ requests evs)%list.
Proof. cbn. apply requests_app. Qed.

Lemma as_records_dicts (records : list (list (string * value))) :
  as_records (VList (VDict <$> records)) = Some records.
Proof.
  unfold as_records. induction records as [|r rs IH]; [done|].
  cbn. cbn in IH. by rewrite IH.
Qed.

Section Analysis.

Variable X : Externals.

Lemma chain_invoke_spec {A} (chain : Chain A) (input : list (string * string)) (w : World) :
  let p := {| prompt_template := chain_prompt chain; prompt_input := input |} in
  chain_invoke X chain input w =
  (match llm_generate X (length (requests (trace w))) (chain_llm chain) p with
   | Ok raw => match chain_parser chain raw with
               | Ok a => Return a
               | Fail e => Raise e
               end
   | Fail e => Raise e
   end,
   add_events [Request (chain_llm chain) p] w).
Proof.
  intros p. unfold chain_invoke, bind. fold p. run_script.
  destruct (llm_generate X _ _ p) as [raw|e]; run_script; [|reflexivity].
  destruct (chain_parser chain raw); reflexivity.
Qed.

Lemma analyze_risk_no_key (text_content : string) (w : World) :
  has_api_key w = false ->
  analyze_risk X text_content w =
  (Return (VList []),
   add_events [Log INFO "Starting risk assessment analysis...";
               Log ERROR "GOOGLE_API_KEY not found.";
               Ui (StError "Error: GOOGLE_API_KEY not found in environment variables.")] w).
Proof.
  intros Hkey. unfold has_api_key in Hkey.
  unfold analyze_risk, bind. exec. tidy_world.
Qed.

Lemma analyze_risk_with_key (text_content : string) (w : World) :
  has_api_key w = true ->
  analyze_risk X text_content w =
  match risk_reply X text_content w with
  | Ok raw =>
      match json_loads X raw with
      | Ok v =>
          (Return v,
           add_events [Log INFO "Starting risk assessment analysis...";
                       Request (risk_llm w) (risk_prompt text_content);
                       Log INFO "Risk assessment analysis completed successfully."] w)
      | Fail e =>
          (Return (VList []),
           add_events [Log INFO "Starting risk assessment analysis...";
                       Request (risk_llm w) (risk_prompt text_content);
                       Log ERROR ("Error during risk assessment analysis: " +:+ str_exn e);
                       Ui (StError ("Error parsing AI response: " +:+ str_exn e))] w)
      end
  | Fail e =>
      (Return (VList []),
       add_events [Log INFO "Starting risk assessment analysis...";
                   Request (risk_llm w) (risk_prompt text_content);
                   Log ERROR ("Error during risk assessment analysis: " +:+ str_exn e);
                   Ui (StError ("Error parsing AI response: " +:+ str_exn e))] w)
  end.
Proof.
  intros Hkey. unfold has_api_key in Hkey.
  unfold analyze_risk, bind, try_except. exec.
  rewrite chain_invoke_spec. cbn [chain_prompt chain_llm chain_parser].
  rewrite requests_add_events, app_nil_r.
  unfold risk_reply. fold (risk_llm w). fold (risk_prompt text_content).
  destruct (llm_generate X _ _ _) as [raw|e]; [destruct (json_loads X raw)|];
    exec; tidy_world.
Qed.

(** C1. [analyze_risk] returns on every text and in every world, never
    raising.  Without a credential it returns the empty list and sends
    nothing to the model.  When the call to the model fails, or its answer
    does not parse, the error is logged, shown to the user with [st.error],
    and the empty list is returned. *)
Theorem analyze_risk_never_raises (text_content : string) (w : World) :
  (exists v w', analyze_risk X text_content w = (Return v, w'))
  /\ (has_api_key w = false ->
      exists w',
        analyze_risk X text_content w = (Return (VList []), w')
        /\ requests (trace w') = requests (trace w))
  /\ (forall e raw,
        has_api_key w = true ->
        risk_reply X text_content w = Fail e
        \/ (risk_reply X text_content w = Ok raw /\ json_loads X raw = Fail e) ->
        analyze_risk X text_content w =
        (Return (VList []),
         add_events
           [Log INFO "Starting risk assessment analysis...";
            Request (risk_llm w) (risk_prompt text_content);
            Log ERROR ("Error during risk assessment analysis: " +:+ str_exn e);
            Ui (StError ("Error parsing AI response: " +:+ str_exn e))] w)).
Proof.
  split; [|split].
  - destruct (has_api_key w) eqn:Hkey.
    + rewrite analyze_risk_with_key by done.
      destruct (risk_reply X text_content w) as [raw|e];
        [destruct (json_loads X raw)|]; eauto.
    + rewrite analyze_risk_no_key by done. eauto.
  - intros Hkey. rewrite analyze_risk_no_key by done.
    eexists; split; [reflexivity|].
    rewrite requests_add_events. cbn. by rewrite app_nil_r.
  - intros e raw Hkey [Hcall|[Hcall Hparse]];
      rewrite analyze_risk_with_key by done; rewrite Hcall; [|rewrite Hparse]; done.
Qed.

Lemma generate_report_narrative_spec (text_content risks_data : value) (w : World) :
  generate_report_narrative X text_content risks_data w =
  match narrative_reply X text_content risks_data w with
  | Ok response =>
      (Return (strip (replace "```" "" (replace "```markdown" "" response))),
       add_events [Log INFO "Generating report narrative...";
                   Request (narrative_llm w) (narrative_prompt X text_content risks_data)] w)
  | Fail e =>
      (Return "Error generating report narrative.",
       add_events [Log INFO "Generating report narrative...";
                   Request (narrative_llm w) (narrative_prompt X text_content risks_data);
                   Log ERROR ("Error generating report narrative: " +:+ str_exn e)] w)
  end.
Proof.
  unfold generate_report_narrative, bind, try_except. exec.
  rewrite chain_invoke_spec. cbn [chain_prompt chain_llm chain_parser].
  rewrite requests_add_events, app_nil_r.
  unfold narrative_reply.
  fold (narrative_llm w). fold (narrative_prompt X text_content risks_data).
  destruct (llm_generate X _ _ _) as [response|e]; exec; tidy_world.
Qed.

Lemma save_to_temp_spec (u : UploadedFile) (w : World) :
  save_to_temp X u w =
  match file_write X (temp_path u) (getbuffer u) with
  | Written =>
      (Return (temp_path u),
       add_events [Log INFO ("Saving uploaded file to temporary path: " +:+ temp_path u)]
         {| environ := environ w;
            dirs := {["temp"]} ∪ dirs w;
            files := <[temp_path u := getbuffer u]> (files w);
            session_state := session_state w;
            trace := trace w |})
  | OpenFailed e =>
      (Raise e,
       add_events [Log INFO ("Saving uploaded file to temporary path: " +:+ temp_path u)]
         {| environ := environ w;
            dirs := {["temp"]} ∪ dirs w;
            files := files w;
            session_state := session_state w;
            trace := trace w |})
  | WriteFailed partial e =>
      (Raise e,
       add_events [Log INFO ("Saving uploaded file to temporary path: " +:+ temp_path u)]
         {| environ := environ w;
            dirs := {["temp"]} ∪ dirs w;
            files := <[temp_path u := partial]> (files w);
            session_state := session_state w;
            trace := trace w |})
  end.
Proof.
  unfold save_to_temp. set (p := temp_path u). unfold bind. run_script.
  destruct (file_write X p (getbuffer u)); reflexivity.
Qed.

(** [load_docx] when the copy of the upload has been written. *)
Lemma load_docx_spec (u : UploadedFile) (w : World) :
  file_write X (temp_path u) (getbuffer u) = Written ->
  load_docx X u w =
  (match docx2txt X (getbuffer u) with
   | Ok (d :: _) => Return (page_content d)
   | Ok [] => Raise (Exception "list index out of range")
   | Fail e => Raise e
   end,
   add_events
     [Log INFO ("Saving uploaded file to temporary path: " +:+ temp_path u);
      Log INFO "Loading document content...";
      match docx2txt X (getbuffer u) with
      | Ok (d :: _) => Log INFO "Document content loaded successfully."
      | Ok [] => Log ERROR "Error loading document: list index out of range"
      | Fail e => Log ERROR ("Error loading document: " +:+ str_exn e)
      end;
      Log INFO ("Cleaned up temporary file: " +:+ temp_path u)]
     {| environ := environ w;
        dirs := {["temp"]} ∪ dirs w;
        files := delete (temp_path u) (files w);
        session_state := session_state w;
        trace := trace w |}).
Proof.
  intros Hwrite. unfold load_docx, bind at 1. rewrite save_to_temp_spec, Hwrite.
  set (p := temp_path u).
  unfold bind, try_finally, try_except. run_script.
  rewrite lookup_insert_eq.
  destruct (docx2txt X (getbuffer u)) as [[|d ds]|e]; run_script;
    rewrite lookup_insert_eq, is_Some_Some_true;
    run_script; unfold os_remove; run_script;
    rewrite lookup_insert_eq; run_script; tidy_world;
    unfold add_events, set_files; cbn; rewrite delete_insert_eq, <- ?app_assoc;
    reflexivity.
Qed.

(** [load_docx] when the copy of the upload could not be written: the
    exception leaves [load_docx] before the [try] is entered. *)
Lemma load_docx_open_failed (u : UploadedFile) (w : World) (e : exn) :
  file_write X (temp_path u) (getbuffer u) = OpenFailed e ->
  load_docx X u w =
  (Raise e,
   add_events [Log INFO ("Saving uploaded file to temporary path: " +:+ temp_path u)]
     {| environ := environ w;
        dirs := {["temp"]} ∪ dirs w;
        files := files w;
        session_state := session_state w;
        trace := trace w |}).
Proof.
  intros Hwrite. unfold load_docx, bind at 1. by rewrite save_to_temp_spec, Hwrite.
Qed.

Lemma load_docx_write_failed (u : UploadedFile) (w : World) (partial : string) (e : exn) :
  file_write X (temp_path u) (getbuffer u) = WriteFailed partial e ->
  load_docx X u w =
  (Raise e,
   add_events [Log INFO ("Saving uploaded file to temporary path: " +:+ temp_path u)]
     {| environ := environ w;
        dirs := {["temp"]} ∪ dirs w;
        files := <[temp_path u := partial]> (files w);
        session_state := session_state w;
        trace := trace w |}).
Proof.
  intros Hwrite. unfold load_docx, bind at 1. by rewrite save_to_temp_spec, Hwrite.
Qed.

End Analysis.

(** ** Concrete runs *)

Example replace_fences :
  replace "```" "" (replace "```markdown" "" ("```markdown" +:+ LF +:+ "# T" +:+ LF +:+ "```"))
  = LF +:+ "# T" +:+ LF.
Proof. reflexivity. Qed.

Example replace_does_not_overlap : replace "aa" "b" "aaa" = "ba".
Proof. reflexivity. Qed.

Example strip_both_ends : strip ("  " +:+ LF +:+ "a b" +:+ LF) = "a b".
Proof. reflexivity. Qed.

Example join_relative : os_path_join "temp" "prd.docx" = "temp/prd.docx".
Proof. reflexivity. Qed.

Example join_absolute : os_path_join "temp" "/etc/prd.docx" = "/etc/prd.docx".
Proof. reflexivity. Qed.

Example encode_latin1 : encode_utf8 (String (ascii_of_nat 233) "") = String (ascii_of_nat 195) (String (ascii_of_nat 169) "").
Proof. reflexivity. Qed.

Example labels_first_appearance :
  record_labels [[("b", VInt 1); ("a", VInt 2)]; [("a", VInt 3); ("c", VInt 4)]]
  = ["b"; "a"; "c"].
Proof. vm_compute. reflexivity. Qed.

Example load_docx_returns :
  fst (load_docx (sample_externals (fun _ => Ok "") (Ok VNone)) sample_upload
         (sample_world ∅ ∅))
  = Return sample_text.
Proof. vm_compute. reflexivity. Qed.

Example load_docx_raises :
  fst (load_docx (sample_externals (fun _ => Ok "") (Ok VNone)) empty_upload
         (sample_world ∅ ∅))
  = Raise (Exception "File is not a zip file").
Proof. vm_compute. reflexivity. Qed.

Section Extraction.

Variable X : Externals.

(** C2.  What [load_docx] leaves at the temporary path.  When the copy of
    the upload has been written, the [finally] block removes it on every
    exit of the [try]: on the exit that returns the text and on the exits
    that raise (the parser fails, or it yields no document).  When [open]
    fails, no file has been created and none is left.  But the copy is
    written before the [try] is entered: when writing fails after [open] has
    created the file, [load_docx] raises at once, the [finally] block does
    not run, and the file stays on disk holding what was written of it. *)
Theorem load_docx_temp_file (u : UploadedFile) (w : World) :
  (file_write X (temp_path u) (getbuffer u) = Written ->
   files (snd (load_docx X u w)) !! temp_path u = None
   /\ ((exists content, fst (load_docx X u w) = Return content)
       \/ (exists e, fst (load_docx X u w) = Raise e)))
  /\ (forall e,
        file_write X (temp_path u) (getbuffer u) = OpenFailed e ->
        fst (load_docx X u w) = Raise e
        /\ files (snd (load_docx X u w)) = files w)
  /\ (forall partial e,
        file_write X (temp_path u) (getbuffer u) = WriteFailed partial e ->
        fst (load_docx X u w) = Raise e
        /\ files (snd (load_docx X u w)) !! temp_path u = Some partial
        /\ trace (snd (load_docx X u w))
           = (trace w
              ++ [Log INFO ("Saving uploaded file to temporary path: " +:+ temp_path u)])%list).
Proof.
  split; [|split].
  - intros Hwrite. rewrite load_docx_spec by done. cbn [fst snd files add_events]. split.
    + apply lookup_delete_eq.
    + destruct (docx2txt X (getbuffer u)) as [[|d ds]|e]; eauto.
  - intros e Hwrite. by rewrite (load_docx_open_failed X u w e).
  - intros partial e Hwrite. rewrite (load_docx_write_failed X u w partial e) by done.
    cbn [fst snd files trace add_events]. split; [done|]. split; [|done].
    apply lookup_insert_eq.
Qed.

Lemma temp_path_inj (u1 u2 : UploadedFile) :
  temp_path u1 = temp_path u2 -> name u1 = name u2.
Proof.
  unfold temp_path, os_path_join. cbn [String.eqb ends_with_slash orb].
  replace (ends_with_slash "temp") with false by reflexivity.
  destruct (name u1) as [|c1 s1], (name u2) as [|c2 s2]; cbn [starts_with_slash].
  - done.
  - destruct (Ascii.eqb_spec c2 "/") as [->|]; cbn; [discriminate|].
    intros H. injection H as H. discriminate.
  - destruct (Ascii.eqb_spec c1 "/") as [->|]; cbn; [discriminate|].
    intros H. injection H as H. discriminate.
  - destruct (Ascii.eqb_spec c1 "/") as [->|], (Ascii.eqb_spec c2 "/") as [->|]; cbn.
    + done.
    + intros H. injection H as H1 H2. discriminate.
    + intros H. injection H as H1 H2. discriminate.
    + intros H. by simplify_eq.
Qed.

Lemma temp_path_shape (u : UploadedFile) :
  temp_path u = (if starts_with_slash (name u) then name u else "temp/" +:+ name u).
Proof. unfold temp_path, os_path_join. by destruct (starts_with_slash (name u)). Qed.

(** C7, amended.  [load_docx] copies the upload to [os.path.join("temp", name)]:
    [temp/] followed by the name of the upload, or the name itself when it
    begins with a slash.  When the write succeeds, the file at that path
    holds the bytes of the upload as the [try] is entered, no other file has
    changed, and what the parser makes of those bytes is what [load_docx]
    returns or raises.  The path is computed from the name alone and is not
    unique to the upload: two uploads get the same path exactly when they
    carry the same name, whatever their contents. *)
Theorem temp_path_keyed_on_name (u1 u2 : UploadedFile) (w : World) :
  temp_path u1 = (if starts_with_slash (name u1) then name u1 else "temp/" +:+ name u1)
  /\ (file_write X (temp_path u1) (getbuffer u1) = Written ->
      fst (save_to_temp X u1 w) = Return (temp_path u1)
      /\ files (snd (save_to_temp X u1 w)) = <[temp_path u1 := getbuffer u1]> (files w)
      /\ fst (load_docx X u1 w)
         = match docx2txt X (getbuffer u1) with
           | Ok (d :: _) => Return (page_content d)
           | Ok [] => Raise (Exception "list index out of range")
           | Fail e => Raise e
           end)
  /\ (temp_path u1 = temp_path u2 <-> name u1 = name u2).
Proof.
  split; [apply temp_path_shape|]. split.
  - intros Hwrite. rewrite save_to_temp_spec, Hwrite. cbn [fst snd files add_events].
    split; [done|]. split; [done|]. by rewrite load_docx_spec.
  - split; [apply temp_path_inj|]. unfold temp_path. by intros ->.
Qed.

(** C4. [generate_report_narrative] returns a string on every text, every
    risk data and in every world.  When the call to the model fails it logs
    the error and returns the fixed placeholder, with which the report is
    assembled like with any other narrative. *)
Theorem generate_report_narrative_never_raises
    (text_content risks_data : value) (w : World) :
  (exists narrative w',
     generate_report_narrative X text_content risks_data w = (Return narrative, w'))
  /\ (forall e,
        narrative_reply X text_content risks_data w = Fail e ->
        generate_report_narrative X text_content risks_data w =
        (Return "Error generating report narrative.",
         add_events
           [Log INFO "Generating report narrative...";
            Request (narrative_llm w) (narrative_prompt X text_content risks_data);
            Log ERROR ("Error generating report narrative: " +:+ str_exn e)] w))
  /\ (forall records,
        assemble_report X "Error generating report narrative." (VList (VDict <$> records))
        = Ok ("Error generating report narrative." +:+ LF +:+ LF +:+
              "## Risk Assessment" +:+ LF +:+ LF +:+
              to_markdown X (frame_of_records records))).
Proof.
  split; [|split].
  - rewrite generate_report_narrative_spec.
    destruct (narrative_reply X text_content risks_data w); eauto.
  - intros e He. rewrite generate_report_narrative_spec. by rewrite He.
  - intros records. unfold assemble_report, pd_DataFrame.
    rewrite as_records_dicts. reflexivity.
Qed.

End Extraction.

Section Report.

Variable X : Externals.

Lemma convert_to_pdf_spec (source_html : string) (w : World) :
  convert_to_pdf X source_html w =
  (Return (pdf_bytes_of X source_html), add_events (pdf_log_of X source_html) w).
Proof.
  unfold convert_to_pdf, pdf_bytes_of, pdf_log_of.
  destruct (pisa_CreatePDF X source_html) as [result err].
  destruct (err =? 0)%Z; run_script; [|reflexivity].
  unfold add_events. destruct w; cbn. by rewrite app_nil_r.
Qed.

Lemma narrative_reply_add_events (ot rd : value) (evs : list event) (w : World) :
  requests evs = [] ->
  narrative_reply X ot rd (add_events evs w) = narrative_reply X ot rd w.
Proof.
  intros H. unfold narrative_reply. by rewrite requests_add_events, H, app_nil_r.
Qed.

Lemma report_page_no_data (w : World) (rd : value) :
  session_state w !! "risk_data" = Some rd ->
  truthy rd = false ->
  render_report_page X w =
  (Return tt,
   add_events [Ui (StButton BtnBack);
               Ui (StError "No data available. Please perform an assessment first.")] w).
Proof.
  intros Hrd Trd. unfold render_report_page, bind. exec. tidy_world.
Qed.

Lemma report_page_no_text (w : World) (rd ot : value) :
  session_state w !! "risk_data" = Some rd ->
  session_state w !! "original_text" = Some ot ->
  truthy ot = false ->
  render_report_page X w =
  (Return tt,
   add_events [Ui (StButton BtnBack);
               Ui (StError "No data available. Please perform an assessment first.")] w).
Proof.
  intros Hrd Hot Tot. unfold render_report_page, bind. exec.
  destruct (truthy rd); exec; tidy_world.
Qed.

Lemma report_page_shown (w : World) (rd ot full : value) :
  has_data w rd ot ->
  session_state w !! "full_report_md" = Some full ->
  is_None full = false ->
  render_report_page X w =
  match markdown_markdown X full with
  | Ok html_text =>
      (Return tt, add_events (Ui (StButton BtnBack) :: report_view X full html_text) w)
  | Fail e =>
      (Raise e,
       add_events [Ui (StButton BtnBack); Ui (StMarkdown full); Ui (StColumns 2);
                   Ui (StDownloadButton DlMarkdown full)] w)
  end.
Proof.
  intros (Hrd & Trd & Hot & Tot) Hfull Nfull.
  unfold render_report_page, bind. exec.
  destruct (markdown_markdown X full) as [html_text|e]; exec; [|tidy_world].
  rewrite convert_to_pdf_spec. unfold report_view.
  destruct (truthy (pdf_bytes_of X (html_with_style html_text))); exec; tidy_world.
Qed.

Lemma report_page_first (w : World) (rd ot : value) :
  has_data w rd ot ->
  session_state w !! "full_report_md" = None
  \/ session_state w !! "full_report_md" = Some VNone ->
  render_report_page X w =
  let w2 := add_events (narrative_events X ot rd w) w in
  match assemble_report X (narrative_of (narrative_reply X ot rd w)) rd with
  | Fail e => (Raise e, w2)
  | Ok report =>
      let w3 := set_session (insert "full_report_md" (VStr report)) w2 in
      match markdown_markdown X (VStr report) with
      | Ok html_text => (Return tt, add_events (report_view X (VStr report) html_text) w3)
      | Fail e =>
          (Raise e,
           add_events [Ui (StMarkdown (VStr report)); Ui (StColumns 2);
                       Ui (StDownloadButton DlMarkdown (VStr report))] w3)
      end
  end.
Proof.
  intros (Hrd & Trd & Hot & Tot) Hfull.
  assert (Hgen : forall w1,
    w1 = add_events [Ui (StButton BtnBack); Ui (StSpinner "Generating narrative report...")] w ->
    generate_report_narrative X ot rd w1 =
    (Return (narrative_of (narrative_reply X ot rd w)),
     add_events (narrative_events X ot rd w) w)).
  { intros w1 ->. rewrite generate_report_narrative_spec.
    rewrite narrative_reply_add_events by reflexivity.
    unfold narrative_events, narrative_of.
    destruct (narrative_reply X ot rd w); tidy_world. }
  unfold render_report_page, bind.
  destruct Hfull as [Hfull|Hfull]; exec; cbn [is_None]; exec; tidy_world;
    rewrite (Hgen _ eq_refl); exec;
    (destruct (assemble_report X _ rd) as [report|e]; exec; [|reflexivity]);
    (destruct (markdown_markdown X (VStr report)) as [html_text|e]; exec;
       [|unfold set_session; cbn; tidy_world]);
    rewrite convert_to_pdf_spec; unfold report_view;
    destruct (truthy (pdf_bytes_of X (html_with_style html_text))); exec;
    unfold set_session; cbn; tidy_world.
Qed.


Lemma length_requests_narrative_events (ot rd : value) (w : World) :
  length (requests (narrative_events X ot rd w)) = 1%nat.
Proof.
  unfold narrative_events. destruct (narrative_reply X ot rd w); reflexivity.
Qed.







End Report.

Section Pages.

Variable X : Externals.

Lemma analyze_risk_analysis (text_content : string) (w : World) :
  exists evs,
    analyze_risk X text_content w = (Return (analysis X text_content w), add_events evs w).
Proof.
  unfold analysis. destruct (has_api_key w) eqn:Hkey.
  - rewrite analyze_risk_with_key by done.
    destruct (risk_reply X text_content w) as [raw|e];
      [destruct (json_loads X raw)|]; eauto.
  - rewrite analyze_risk_no_key by done. eauto.
Qed.

Lemma analysis_same_history (text_content : string) (w w' : World) :
  environ w' = environ w ->
  requests (trace w') = requests (trace w) ->
  analysis X text_content w' = analysis X text_content w.
Proof.
  intros Henv Hreq. unfold analysis, has_api_key, risk_reply, risk_llm.
  by rewrite Henv, Hreq.
Qed.

(** The store after an assessment of an upload whose text is not empty. *)
Lemma home_page_assessment (ws : Widgets) (w : World) (f : UploadedFile)
    (d : Document) (ds : list Document) :
  clicked ws = Some BtnAssess ->
  file_uploader ws = Some f ->
  file_write X (temp_path f) (getbuffer f) = Written ->
  docx2txt X (getbuffer f) = Ok (d :: ds) ->
  str_truthy (page_content d) = true ->
  exists r w',
    render_home_page X ws w = (r, w')
    /\ session_state w' =
       delete "full_report_md"
         (<["risk_data" := analysis X (page_content d) w]>
            (<["original_text" := VStr (page_content d)]> (session_state w))).
Proof.
  intros Hclick Hfile Hwrite Hdoc Htext.
  unfold render_home_page, bind, try_except. exec.
  rewrite (bool_decide_eq_true_2 (Some BtnAssess = Some BtnAssess)) by done.
  exec. rewrite load_docx_spec by done. exec.
  match goal with
  | |- context [analyze_risk X ?t ?w0] =>
      destruct (analyze_risk_analysis t w0) as (evs & Hrun);
      rewrite Hrun; clear Hrun;
      assert (Hsame : analysis X t w0 = analysis X t w)
  end.
  { apply analysis_same_history; [reflexivity|].
    cbn. rewrite !requests_app. cbn. by rewrite !app_nil_r. }
  rewrite Hsame. clear Hsame.
  match goal with
  | |- context [set_session <["risk_data":=_]> ?w0] =>
      remember w0 as wm eqn:Hwm;
      assert (Hs : session_state wm
                   = <["original_text":=VStr (page_content d)]> (session_state w))
        by (by subst wm);
      clear Hwm
  end.
  set (risks := analysis X (page_content d) w).
  set (m := <["original_text":=VStr (page_content d)]> (session_state w)) in *.
  assert (Hrd : delete "full_report_md" (<["risk_data":=risks]> m) !! "risk_data"
                = Some risks).
  { rewrite lookup_delete_ne by done. apply lookup_insert_eq. }
  assert (Hfinal : forall (r : outcome unit) (w0 : World),
             session_state w0 = delete "full_report_md" (<["risk_data":=risks]> m) ->
             exists r' w', (r, w0) = (r', w')
               /\ session_state w' = delete "full_report_md" (<["risk_data":=risks]> m)).
  { intros r w0 Hw0. by exists r, w0. }
  rewrite (bool_decide_eq_false_2 (Some BtnAssess = Some BtnGenerate)) by done.
  assert (Hm : <["risk_data":=risks]> m !! "full_report_md"
               = session_state w !! "full_report_md").
  { unfold m. by rewrite !lookup_insert_ne. }
  destruct (session_state w !! "full_report_md") as [old|] eqn:Hold.
  - exec. destruct (truthy risks); exec;
      [destruct (pd_DataFrame X risks); exec|]; apply Hfinal; cbn; by rewrite Hs.
  - exec. destruct (truthy risks); exec;
      [destruct (pd_DataFrame X risks); exec|]; apply Hfinal; cbn;
      rewrite Hs; fold m; symmetry; by apply delete_id.
Qed.

(** C6. When the assessment button is pressed on the home page with an
    upload that is copied to its temporary path and whose extracted text is
    not empty, so that the document is analysed, the store ends with
    [risk_data] set to the value [analyze_risk] returns for that text and
    without [full_report_md].  (The analysis runs in a world that differs
    from [w] by log records and page elements only, which its result does
    not depend on.) *)
Theorem assessment_overwrites_risk_data (ws : Widgets) (w : World) (f : UploadedFile)
    (d : Document) (ds : list Document) :
  clicked ws = Some BtnAssess ->
  file_uploader ws = Some f ->
  file_write X (temp_path f) (getbuffer f) = Written ->
  docx2txt X (getbuffer f) = Ok (d :: ds) ->
  str_truthy (page_content d) = true ->
  exists risks,
    fst (analyze_risk X (page_content d) w) = Return risks
    /\ session_state (snd (render_home_page X ws w)) !! "risk_data" = Some risks
    /\ session_state (snd (render_home_page X ws w)) !! "full_report_md" = None
    /\ session_state (snd (render_home_page X ws w)) !! "original_text"
       = Some (VStr (page_content d)).
Proof.
  intros Hclick Hfile Hwrite Hdoc Htext.
  destruct (home_page_assessment ws w f d ds) as (r & w' & Hrun & Hstore); try done.
  destruct (analyze_risk_analysis (page_content d) w) as (evs & Hrisks).
  exists (analysis X (page_content d) w). rewrite Hrun, Hrisks. cbn [fst snd].
  rewrite Hstore. split; [done|]. split; [|split].
  - rewrite lookup_delete_ne by done. apply lookup_insert_eq.
  - apply lookup_delete_eq.
  - rewrite lookup_delete_ne, lookup_insert_ne by done. apply lookup_insert_eq.
Qed.

(** C10. Whatever value the model's answer parses to, [analyze_risk] returns
    that value as it is, and the home page, once it has the text of the
    upload, stores it as [risk_data]: nothing about its shape is inspected on
    the way. *)
Theorem analyze_risk_returns_parsed_value
    (text_content raw : string) (v : value) (w : World) :
  has_api_key w = true ->
  risk_reply X text_content w = Ok raw ->
  json_loads X raw = Ok v ->
  analyze_risk X text_content w =
  (Return v,
   add_events [Log INFO "Starting risk assessment analysis...";
               Request (risk_llm w) (risk_prompt text_content);
               Log INFO "Risk assessment analysis completed successfully."] w)
  /\ forall ws f ds,
       clicked ws = Some BtnAssess ->
       file_uploader ws = Some f ->
       file_write X (temp_path f) (getbuffer f) = Written ->
       docx2txt X (getbuffer f) = Ok ({| page_content := text_content |} :: ds) ->
       str_truthy text_content = true ->
       session_state (snd (render_home_page X ws w)) !! "risk_data" = Some v.
Proof.
  intros Hkey Hreply Hparse. split.
  - rewrite analyze_risk_with_key by done. by rewrite Hreply, Hparse.
  - intros ws f ds Hclick Hfile Hwrite Hdoc Htext.
    destruct (home_page_assessment ws w f {| page_content := text_content |} ds)
      as (r & w' & Hrun & Hstore); try done.
    rewrite Hrun. cbn [snd page_content] in *. rewrite Hstore.
    rewrite lookup_delete_ne by done. rewrite lookup_insert_eq.
    unfold analysis. by rewrite Hkey, Hreply, Hparse.
Qed.

(** C9. With [healthz] among the query parameters, [main] logs its start,
    writes [OK] and returns: the files, the store and the environment are as
    before, nothing is sent to the model and nothing else is put on the
    page. *)
Theorem main_healthz (ws : Widgets) (w : World) :
  "healthz" ∈ dom (query_params ws) ->
  main X ws w =
  (Return tt, add_events [Log INFO "Application starting..."; Ui (StWrite "OK")] w).
Proof.
  intros Hq. unfold main, bind. run_script.
  rewrite (bool_decide_eq_true_2 _ Hq). run_script. tidy_world.
Qed.

End Pages.

Ltac exec_store :=
  repeat (progress (exec; rewrite ?lookup_insert_ne by done;
                    cbn [is_str String.eqb Ascii.eqb Bool.eqb])).

Section Navigation.

Variable X : Externals.

(** Every rendering of the report page draws the back button first. *)
Lemma report_page_back_button (w : World) :
  exists evs,
    trace (snd (render_report_page X w)) = (trace w ++ Ui (StButton BtnBack) :: evs)%list.
Proof.
  destruct (session_state w !! "risk_data") as [rd|] eqn:Hrd;
    [|unfold render_report_page, bind; exec; by eexists].
  destruct (truthy rd) eqn:Trd;
    [|rewrite (report_page_no_data X w rd) by done; by eexists].
  destruct (session_state w !! "original_text") as [ot|] eqn:Hot;
    [|unfold render_report_page, bind; exec; by eexists].
  destruct (truthy ot) eqn:Tot;
    [|rewrite (report_page_no_text X w rd ot) by done; by eexists].
  assert (Hdata : has_data w rd ot) by done.
  assert (Hfirst : session_state w !! "full_report_md" = None
                   \/ session_state w !! "full_report_md" = Some VNone ->
                   exists evs,
                     trace (snd (render_report_page X w))
                     = (trace w ++ Ui (StButton BtnBack) :: evs)%list).
  { intros Hstale. rewrite (report_page_first X w rd ot) by done. cbv zeta.
    unfold narrative_events.
    destruct (assemble_report X _ rd) as [report|e];
      [destruct (markdown_markdown X (VStr report))|];
      cbn [snd trace add_events set_session app]; rewrite <- ?app_assoc;
      cbn [app]; by eexists. }
  destruct (session_state w !! "full_report_md") as [full|] eqn:Hfull;
    [destruct (is_None full) eqn:Nfull|].
  - destruct full; try discriminate. apply Hfirst. by right.
  - rewrite (report_page_shown X w rd ot full) by done.
    destruct (markdown_markdown X full); by eexists.
  - apply Hfirst. by left.
Qed.

Lemma main_report_no_data (ws : Widgets) (w : World) (rd : value) :
  session_state w !! "page" = Some (VStr "report") ->
  session_state w !! "risk_data" = Some rd ->
  truthy rd = false ->
  exists w',
    main X ws w = (Return tt, w')
    /\ session_state w' !! "page" = Some (VStr "report").
Proof.
  intros Hpage Hrd Trd. unfold main, bind. run_script.
  destruct (bool_decide ("healthz" ∈ dom (query_params ws))); run_script;
    [by eexists|].
  destruct (session_state w !! "original_text") as [ot|] eqn:Hot; exec_store;
    match goal with
    | |- context [render_report_page X ?w0] =>
        rewrite (report_page_no_data X w0 rd)
          by (try done; cbn; by rewrite ?lookup_insert_ne)
    end;
    eexists; (split; [reflexivity|]); cbn; by rewrite ?lookup_insert_ne.
Qed.

Lemma main_home_no_data (ws : Widgets) (w : World) (rd : value) :
  clicked ws = Some BtnBack ->
  session_state w !! "page" = Some (VStr "home") ->
  session_state w !! "risk_data" = Some rd ->
  truthy rd = false ->
  exists w',
    main X ws w = (Return tt, w')
    /\ session_state w' !! "page" = Some (VStr "home").
Proof.
  intros Hclick Hpage Hrd Trd. unfold main, bind. run_script.
  destruct (bool_decide ("healthz" ∈ dom (query_params ws))); run_script;
    [by eexists|].
  unfold render_home_page, bind.
  destruct (session_state w !! "original_text") as [ot|] eqn:Hot; exec_store;
    rewrite (bool_decide_eq_false_2 (Some BtnBack = Some BtnAssess)) by done;
    exec_store;
    eexists; (split; [reflexivity|]); cbn; by rewrite ?lookup_insert_ne.
Qed.

(** C5, amended. On the report page with no risk data the script draws the
    back button and the error message and nothing else, and it changes
    nothing but the trace.  The state is not terminal: pressing the back
    button, which every rendering of the report page draws before it looks at
    the data, leads to the home page; every other interaction stays on the
    report page. *)
Theorem report_without_data (ws : Widgets) (w : World) (rd : value) :
  session_state w !! "page" = Some (VStr "report") ->
  session_state w !! "risk_data" = Some rd ->
  truthy rd = false ->
  render_report_page X w =
  (Return tt,
   add_events [Ui (StButton BtnBack);
               Ui (StError "No data available. Please perform an assessment first.")] w)
  /\ fst (interaction X ws w) = Return tt
  /\ session_state (snd (interaction X ws w)) !! "page"
     = Some (VStr (if bool_decide (clicked ws = Some BtnBack) then "home" else "report"))
  /\ forall w' : World,
       (exists evs,
          trace (snd (render_report_page X w'))
          = (trace w' ++ Ui (StButton BtnBack) :: evs)%list)
       /\ session_state (snd (back_on_click w')) !! "page" = Some (VStr "home").
Proof.
  intros Hpage Hrd Trd. split; [by apply (report_page_no_data X w rd)|].
  assert (Hnav : fst (interaction X ws w) = Return tt
                 /\ session_state (snd (interaction X ws w)) !! "page"
                    = Some (VStr (if bool_decide (clicked ws = Some BtnBack)
                                  then "home" else "report"))).
  { unfold interaction. case_bool_decide as Hclick.
    - destruct (main_home_no_data ws (snd (back_on_click w)) rd) as (w' & Hrun & Hhome);
        try done.
      + cbn. apply lookup_insert_eq.
      + cbn. by rewrite lookup_insert_ne.
      + by rewrite Hrun.
    - destruct (main_report_no_data ws w rd) as (w' & Hrun & Hreport); try done.
      by rewrite Hrun. }
  destruct Hnav as [Hret Hnav]. split; [done|]. split; [done|].
  intros w'. split; [apply report_page_back_button|].
  cbn. apply lookup_insert_eq.
Qed.

End Navigation.

Section Assembly.

Variable X : Externals.

Lemma add_label_prefix (labels : list string) (k : string) :
  labels `prefix_of` add_label labels k.
Proof.
  unfold add_label. case_bool_decide; [done|]. by apply prefix_app_r.
Qed.

Lemma fold_add_label_prefix (ks labels : list string) :
  labels `prefix_of` fold_left add_label ks labels.
Proof.
  revert labels. induction ks as [|k ks IH]; intros labels; [done|].
  cbn. etrans; [apply add_label_prefix|apply IH].
Qed.

Lemma fold_records_prefix (records : list (list (string * value))) (labels : list string) :
  labels `prefix_of`
    fold_left (fun labels r => fold_left add_label (map fst r) labels) records labels.
Proof.
  revert labels. induction records as [|r records IH]; intros labels; [done|].
  cbn. etrans; [apply fold_add_label_prefix|apply IH].
Qed.

Lemma fold_add_label_fresh (ks labels : list string) :
  NoDup (labels ++ ks) -> fold_left add_label ks labels = (labels ++ ks)%list.
Proof.
  revert labels. induction ks as [|k ks IH]; intros labels Hnd.
  - by rewrite app_nil_r.
  - cbn. unfold add_label at 2.
    rewrite bool_decide_eq_false_2.
    + rewrite IH; rewrite <- app_assoc; done.
    + apply NoDup_app in Hnd as (_ & Hdisj & _). intros Hin.
      apply (Hdisj k Hin). by left.
Qed.

Lemma fold_add_label_known (ks labels : list string) :
  Forall (fun k => k ∈ labels) ks -> fold_left add_label ks labels = labels.
Proof.
  induction 1 as [|k ks Hk _ IH]; [done|].
  cbn. unfold add_label at 2. by rewrite bool_decide_eq_true_2.
Qed.

Lemma record_labels_head (r : list (string * value)) (rest : list (list (string * value))) :
  NoDup (map fst r) -> map fst r `prefix_of` record_labels (r :: rest).
Proof.
  intros Hnd. unfold record_labels. cbn [fold_left].
  rewrite (fold_add_label_fresh (map fst r) []) by done. cbn [app].
  apply fold_records_prefix.
Qed.

Lemma record_labels_uniform (fields : list string) (records : list (list (string * value))) :
  NoDup fields ->
  records <> [] ->
  Forall (fun r => map fst r = fields) records ->
  record_labels records = fields.
Proof.
  intros Hnd Hne Hall. destruct records as [|r records]; [done|].
  apply Forall_cons in Hall as [Hr Hall].
  unfold record_labels. cbn [fold_left]. rewrite Hr.
  rewrite (fold_add_label_fresh fields []) by done. cbn [app].
  clear Hr Hne r. induction Hall as [|r records Hr _ IH]; [done|].
  cbn [fold_left]. rewrite Hr, fold_add_label_known; [exact IH|].
  by apply Forall_forall.
Qed.

Lemma risk_record_fields_NoDup : NoDup risk_record_fields.
Proof. by apply (bool_decide_unpack (NoDup risk_record_fields)). Qed.

(** C8, amended. Report assembly is a function of the narrative and the
    records alone: the narrative, a blank line, the heading
    [## Risk Assessment], a blank line, and the Markdown table of the frame
    pandas builds from the records.  The columns of that frame are the keys
    of the records in the order in which the records introduce them: they
    begin with the keys of the first record in its own order, and they are
    the Risk Record fields in the listed order when every record lists its
    keys in that order. *)
Theorem report_assembly (narrative : string) (records : list (list (string * value))) :
  assemble_report X narrative (VList (VDict <$> records))
  = Ok (narrative +:+ LF +:+ LF +:+ "## Risk Assessment" +:+ LF +:+ LF +:+
        to_markdown X (frame_of_records records))
  /\ (forall r rest,
        records = r :: rest -> NoDup (map fst r) ->
        map fst r `prefix_of` columns (frame_of_records records))
  /\ (records <> [] ->
      Forall (fun r => map fst r = risk_record_fields) records ->
      columns (frame_of_records records) = risk_record_fields).
Proof.
  split; [|split].
  - unfold assemble_report, pd_DataFrame. by rewrite as_records_dicts.
  - intros r rest -> Hnd. by apply record_labels_head.
  - intros Hne Hall. apply record_labels_uniform; [apply risk_record_fields_NoDup|done..].
Qed.

End Assembly.

(** ** Instances and counterexamples *)

Lemma analyze_risk_never_raises_witness :
  (exists w',
     analyze_risk fenced_model sample_text (sample_world ∅ ∅) = (Return (VList []), w')
     /\ requests (trace w') = requests (trace (sample_world ∅ ∅)))
  /\ fst (analyze_risk unreachable_model sample_text (sample_world with_key ∅))
     = Return (VList [])
  /\ fst (analyze_risk unparsable_model sample_text (sample_world with_key ∅))
     = Return (VList []).
Proof.
  split; [|split].
  - apply (proj1 (proj2 (analyze_risk_never_raises fenced_model sample_text
                           (sample_world ∅ ∅)))).
    reflexivity.
  - rewrite (proj2 (proj2 (analyze_risk_never_raises unreachable_model sample_text
                             (sample_world with_key ∅)))
               (Exception "503 Service Unavailable") "");
      [reflexivity|reflexivity|by left].
  - rewrite (proj2 (proj2 (analyze_risk_never_raises unparsable_model sample_text
                             (sample_world with_key ∅)))
               (Exception "Invalid json output") "Sure! Here are the risks:");
      [reflexivity|reflexivity|by right].
Defined.

Lemma generate_report_narrative_never_raises_witness :
  fst (generate_report_narrative unreachable_model (VStr sample_text)
         (VList [VDict sample_record]) (sample_world with_key ∅))
  = Return "Error generating report narrative.".
Proof.
  rewrite (proj1 (proj2 (generate_report_narrative_never_raises unreachable_model
                           (VStr sample_text) (VList [VDict sample_record])
                           (sample_world with_key ∅)))
             (Exception "503 Service Unavailable")); reflexivity.
Defined.

Lemma load_docx_temp_file_witness :
  fst (load_docx full_disk_model sample_upload (sample_world ∅ ∅))
  = Raise (Exception "[Errno 28] No space left on device")
  /\ files (snd (load_docx full_disk_model sample_upload (sample_world ∅ ∅)))
     !! "temp/prd.docx" = Some ""
  /\ files (snd (load_docx fenced_model sample_upload (sample_world ∅ ∅)))
     !! "temp/prd.docx" = None.
Proof.
  pose proof (load_docx_temp_file full_disk_model sample_upload (sample_world ∅ ∅))
    as (_ & _ & Hfull).
  destruct (Hfull "" (Exception "[Errno 28] No space left on device") eq_refl)
    as (Hraise & Hfile & _).
  pose proof (load_docx_temp_file fenced_model sample_upload (sample_world ∅ ∅))
    as (Hwritten & _).
  destruct (Hwritten eq_refl) as (Hgone & _).
  split; [exact Hraise|]. split; [exact Hfile|exact Hgone].
Defined.



Example first_rendering_sends_one_request :
  length (requests (trace (snd (render_report_page fenced_model report_ready)))) = 1%nat
  /\ session_state (snd (render_report_page fenced_model report_ready)) !! "full_report_md"
     = Some (VStr ("# Security Assessment Report" +:+ LF +:+ LF +:+ "## Risk Assessment"
                   +:+ LF +:+ LF +:+
                   "| Feature Name | Threat Type | Description | Risk | Recommendation | Risk Level |")).
Proof. split; vm_compute; reflexivity. Qed.

Lemma report_without_data_witness :
  render_report_page fenced_model report_no_data =
  (Return tt,
   add_events [Ui (StButton BtnBack);
               Ui (StError "No data available. Please perform an assessment first.")]
     report_no_data)
  /\ session_state (snd (interaction fenced_model (press (Some BtnGenerate) None) report_no_data))
     !! "page" = Some (VStr "report").
Proof.
  pose proof (report_without_data fenced_model (press (Some BtnGenerate) None)
                report_no_data VNone) as H.
  destruct H as (Hrender & _ & Hpage & _); [reflexivity..|].
  split; [exact Hrender|exact Hpage].
Defined.

(** C5 as stated fails: the report page without risk data shows the back
    button next to the error message, and pressing it leaves the report
    state. *)
Lemma report_without_data_is_not_terminal :
  session_state report_no_data !! "page" = Some (VStr "report")
  /\ session_state report_no_data !! "risk_data" = Some VNone
  /\ trace (snd (render_report_page fenced_model report_no_data))
     = [Ui (StButton BtnBack);
        Ui (StError "No data available. Please perform an assessment first.")]
  /\ session_state (snd (interaction fenced_model (press (Some BtnBack) None) report_no_data))
     !! "page" = Some (VStr "home").
Proof. repeat split; vm_compute; reflexivity. Qed.

Lemma assessment_overwrites_risk_data_witness :
  session_state home_with_report !! "full_report_md" = Some (VStr "old report")
  /\ exists risks,
       fst (analyze_risk fenced_model sample_text home_with_report) = Return risks
       /\ session_state
            (snd (render_home_page fenced_model
                    (press (Some BtnAssess) (Some sample_upload)) home_with_report))
          !! "risk_data" = Some risks
       /\ session_state
            (snd (render_home_page fenced_model
                    (press (Some BtnAssess) (Some sample_upload)) home_with_report))
          !! "full_report_md" = None
       /\ session_state
            (snd (render_home_page fenced_model
                    (press (Some BtnAssess) (Some sample_upload)) home_with_report))
          !! "original_text" = Some (VStr sample_text).
Proof.
  split; [reflexivity|].
  apply (assessment_overwrites_risk_data fenced_model
           (press (Some BtnAssess) (Some sample_upload)) home_with_report sample_upload
           {| page_content := sample_text |} []); reflexivity.
Defined.

(** C7 as stated fails: two different uploads with the same name get the
    same temporary path. *)
Lemma uploads_share_temp_path :
  sample_upload <> other_upload
  /\ temp_path sample_upload = temp_path other_upload
  /\ temp_path sample_upload = "temp/prd.docx".
Proof. split; [discriminate|]. split; reflexivity. Qed.

Lemma temp_path_keyed_on_name_witness :
  files (snd (save_to_temp fenced_model sample_upload (sample_world ∅ ∅)))
  = {["temp/prd.docx" := sample_text]}
  /\ temp_path absolute_upload = "/srv/prd.docx"
  /\ temp_path sample_upload = temp_path other_upload.
Proof.
  pose proof (temp_path_keyed_on_name fenced_model sample_upload other_upload
                (sample_world ∅ ∅)) as (_ & Hsave & Hsame).
  destruct (Hsave eq_refl) as (_ & Hfiles & _).
  split; [|split].
  - rewrite Hfiles. reflexivity.
  - reflexivity.
  - by apply Hsame.
Defined.

(** C8 as stated fails: a record that has the six fields of a Risk Record,
    risk level first, gives a table whose columns are in the record's order
    and not in the order of the Risk Record fields. *)
Lemma report_columns_follow_record_keys :
  map fst reordered_record ≡ₚ risk_record_fields
  /\ columns (frame_of_records [reordered_record])
     = ["Risk Level"; "Feature Name"; "Threat Type"; "Description"; "Risk"; "Recommendation"]
  /\ columns (frame_of_records [reordered_record]) <> risk_record_fields
  /\ assemble_report fenced_model "# Report" (VList [VDict reordered_record])
     = Ok ("# Report" +:+ LF +:+ LF +:+ "## Risk Assessment" +:+ LF +:+ LF +:+
           "| Risk Level | Feature Name | Threat Type | Description | Risk | Recommendation |").
Proof.
  split;
    [exact (Permutation_cons_append
              ["Feature Name"; "Threat Type"; "Description"; "Risk"; "Recommendation"]
              "Risk Level")|].
  split; [vm_compute; reflexivity|].
  split; [vm_compute; discriminate|vm_compute; reflexivity].
Qed.

Lemma report_assembly_witness :
  columns (frame_of_records [sample_record; sample_record]) = risk_record_fields
  /\ map fst sample_record `prefix_of` columns (frame_of_records [sample_record; reordered_record]).
Proof.
  split.
  - apply (proj2 (proj2 (report_assembly fenced_model "# Report"
                           [sample_record; sample_record]))).
    + discriminate.
    + repeat constructor.
  - apply (proj1 (proj2 (report_assembly fenced_model "# Report"
                           [sample_record; reordered_record]))
             sample_record [reordered_record]); [reflexivity|].
    apply risk_record_fields_NoDup.
Defined.

Lemma main_healthz_witness :
  main fenced_model
    {| query_params := {["healthz" := ""]}; file_uploader := Some sample_upload;
       clicked := Some BtnAssess |} home_with_report
  = (Return tt,
     add_events [Log INFO "Application starting..."; Ui (StWrite "OK")] home_with_report).
Proof.
  apply (main_healthz fenced_model). cbn [query_params].
  rewrite dom_singleton_L. by apply elem_of_singleton.
Defined.

Lemma analyze_risk_returns_parsed_value_witness :
  fst (analyze_risk odd_model sample_text (sample_world with_key ∅))
  = Return (VDict [("Threat Type", VStr "Phishing")])
  /\ session_state
       (snd (render_home_page odd_model (press (Some BtnAssess) (Some sample_upload))
               (sample_world with_key ∅)))
     !! "risk_data" = Some (VDict [("Threat Type", VStr "Phishing")]).
Proof.
  pose proof (analyze_risk_returns_parsed_value odd_model sample_text "{}"
                (VDict [("Threat Type", VStr "Phishing")]) (sample_world with_key ∅))
    as H.
  destruct H as [Hrun Hstore]; [reflexivity..|].
  split; [by rewrite Hrun|].
  apply (Hstore (press (Some BtnAssess) (Some sample_upload)) sample_upload []);
    reflexivity.
Defined.

(** * Further properties *)

(** ** Cleaning the narrative *)

Lemma prefix_cons (a b : ascii) (p s : string) :
  String.prefix (String a p) (String b s) = Ascii.eqb a b && String.prefix p s.
Proof.
  cbn [String.prefix]. destruct (Ascii.ascii_dec a b) as [->|Hne].
  - by rewrite Ascii.eqb_refl.
  - by apply Ascii.eqb_neq in Hne as ->.
Qed.

(** What is left of a text once its fences are removed starts with two
    backquotes only if the text did. *)
Ltac fence_cases :=
  repeat (cbn [replace_from String.prefix String.length Nat.sub String.append] in *;
          match goal with
          | H : context [Ascii.ascii_dec ?a ?b] |- _ =>
              destruct (Ascii.ascii_dec a b); try subst; try congruence
          | |- context [Ascii.ascii_dec ?a ?b] =>
              destruct (Ascii.ascii_dec a b); try subst; try congruence
          end).

Lemma replace_fence_head (s : string) :
  String.prefix "``" (replace_from "```" "" 0 s) = true -> String.prefix "``" s = true.
Proof.
  destruct s as [|c [|c2 u]]; [done|..]; intros H; fence_cases; try done.
  by destruct u.
Qed.

Lemma replace_removes_fences (s : string) (skip : nat) :
  occurs "```" (replace_from "```" "" skip s) = false.
Proof.
  revert skip. induction s as [|c s IH]; intros skip; [done|].
  destruct skip as [|k]; cbn [replace_from]; [|apply IH].
  destruct (String.prefix "```" (String c s)) eqn:Hfence; [apply IH|].
  cbn [occurs]. rewrite IH, orb_false_r.
  rewrite prefix_cons in Hfence |- *.
  destruct (Ascii.eqb "`" c); cbn [andb] in *; [|done].
  destruct (String.prefix "``" (replace_from "```" "" 0 s)) eqn:Hhead; [|done].
  apply replace_fence_head in Hhead. congruence.
Qed.

Lemma prefix_app_true (pat a b : string) :
  String.prefix pat a = true -> String.prefix pat (a +:+ b) = true.
Proof.
  revert a. induction pat as [|p pat IH]; intros a H.
  - by destruct (a +:+ b).
  - destruct a as [|c a]; [done|].
    change (String c a +:+ b) with (String c (a +:+ b)).
    rewrite prefix_cons in H |- *. apply andb_true_iff in H as [-> H].
    by apply IH.
Qed.

Lemma occurs_app_l (pat a b : string) :
  occurs pat a = true -> occurs pat (a +:+ b) = true.
Proof.
  induction a as [|c a IH]; intros H.
  - cbn [occurs] in H. by destruct pat, b.
  - change (String c a +:+ b) with (String c (a +:+ b)).
    cbn [occurs] in *. apply orb_true_iff in H as [H|H].
    + apply (prefix_app_true _ (String c a) b) in H.
      change (String c a +:+ b) with (String c (a +:+ b)) in H. by rewrite H.
    + rewrite (IH H). apply orb_true_r.
Qed.

Lemma occurs_app_r (pat a b : string) :
  occurs pat b = true -> occurs pat (a +:+ b) = true.
Proof.
  intros H. induction a as [|c a IH]; [done|].
  change (String c a +:+ b) with (String c (a +:+ b)).
  cbn [occurs]. rewrite IH. apply orb_true_r.
Qed.

(** [lstrip] drops a prefix and [rstrip] a suffix. *)
Lemma lstrip_suffix (s : string) : exists u, s = u +:+ lstrip s.
Proof.
  induction s as [|c s [u IH]]; [by exists ""|].
  cbn [lstrip]. destruct (isspace c).
  - exists (String c u).
    change (String c u +:+ lstrip s) with (String c (u +:+ lstrip s)).
    by rewrite <- IH.
  - by exists "".
Qed.

Lemma string_of_list_ascii_app (a b : list ascii) :
  string_of_list_ascii (a ++ b) = string_of_list_ascii a +:+ string_of_list_ascii b.
Proof.
  induction a as [|c a IH]; [done|]. cbn [app string_of_list_ascii].
  rewrite IH. reflexivity.
Qed.

Lemma list_ascii_of_string_app (a b : string) :
  list_ascii_of_string (a +:+ b) = (list_ascii_of_string a ++ list_ascii_of_string b)%list.
Proof.
  induction a as [|c a IH]; [done|].
  change (String c a +:+ b) with (String c (a +:+ b)).
  cbn [list_ascii_of_string app]. by rewrite IH.
Qed.

Lemma rstrip_prefix (s : string) : exists u, s = rstrip s +:+ u.
Proof.
  unfold rstrip.
  destruct (lstrip_suffix (string_of_list_ascii (rev (list_ascii_of_string s)))) as [u Hu].
  exists (string_of_list_ascii (rev (list_ascii_of_string u))).
  rewrite <- string_of_list_ascii_app, <- rev_app_distr, <- list_ascii_of_string_app, <- Hu.
  by rewrite list_ascii_of_string_of_list_ascii, rev_involutive,
    string_of_list_ascii_of_string.
Qed.

Lemma occurs_strip (pat s : string) :
  occurs pat (strip s) = true -> occurs pat s = true.
Proof.
  unfold strip. intros H.
  destruct (lstrip_suffix s) as [u Hu]. destruct (rstrip_prefix (lstrip s)) as [v Hv].
  rewrite Hu. apply occurs_app_r. rewrite Hv. by apply occurs_app_l.
Qed.

Lemma lstrip_starts (s : string) : starts_with_space (lstrip s) = false.
Proof.
  induction s as [|c s IH]; [done|].
  cbn [lstrip]. destruct (isspace c) eqn:Hc; [done|]. cbn. exact Hc.
Qed.

Lemma rstrip_ends (s : string) : ends_with_space (rstrip s) = false.
Proof.
  unfold ends_with_space, rstrip.
  rewrite list_ascii_of_string_of_list_ascii, rev_involutive.
  pose proof (lstrip_starts (string_of_list_ascii (rev (list_ascii_of_string s)))) as H.
  by destruct (lstrip _).
Qed.

Lemma rstrip_starts (s : string) :
  starts_with_space s = false -> starts_with_space (rstrip s) = false.
Proof.
  intros H. destruct (rstrip_prefix s) as [u Hu].
  destruct (rstrip s) as [|c r]; [done|]. rewrite Hu in H. exact H.
Qed.

Lemma strip_trimmed (s : string) :
  starts_with_space (strip s) = false /\ ends_with_space (strip s) = false.
Proof.
  unfold strip. split; [apply rstrip_starts, lstrip_starts|apply rstrip_ends].
Qed.

Section Narrative.

Variable X : Externals.

(** X1. The narrative [generate_report_narrative] returns never contains a
    code fence: whatever the model answers, no three backquotes in a row are
    left in it. *)
Theorem narrative_has_no_fence (text_content risks_data : value) (w : World) :
  exists narrative w',
    generate_report_narrative X text_content risks_data w = (Return narrative, w')
    /\ occurs "```" narrative = false.
Proof.
  rewrite generate_report_narrative_spec.
  destruct (narrative_reply X text_content risks_data w) as [response|e].
  - eexists _, _. split; [reflexivity|].
    destruct (occurs "```" (strip _)) eqn:H; [|done].
    apply occurs_strip in H. unfold replace in H.
    by rewrite replace_removes_fences in H.
  - eexists _, _. split; [reflexivity|]. vm_compute. reflexivity.
Qed.

(** X2. The narrative [generate_report_narrative] returns neither begins nor
    ends with white space. *)
Theorem narrative_is_trimmed (text_content risks_data : value) (w : World) :
  exists narrative w',
    generate_report_narrative X text_content risks_data w = (Return narrative, w')
    /\ starts_with_space narrative = false
    /\ ends_with_space narrative = false.
Proof.
  rewrite generate_report_narrative_spec.
  destruct (narrative_reply X text_content risks_data w) as [response|e].
  - eexists _, _. split; [reflexivity|]. apply strip_trimmed.
  - eexists _, _. split; [reflexivity|]. split; vm_compute; reflexivity.
Qed.

(** X3. [analyze_risk] changes nothing but the trace (environment, files
    and session store stay as they are), and it sends exactly one request to
    the model when the credential is set and none when it is not. *)
Theorem analyze_risk_frame (text_content : string) (w : World) :
  let w' := snd (analyze_risk X text_content w) in
  environ w' = environ w /\ files w' = files w /\ dirs w' = dirs w
  /\ session_state w' = session_state w
  /\ requests (trace w')
     = (requests (trace w)
        ++ if has_api_key w then [Request (risk_llm w) (risk_prompt text_content)] else [])%list.
Proof.
  cbv zeta. destruct (has_api_key w) eqn:Hkey.
  - rewrite analyze_risk_with_key by done.
    destruct (risk_reply X text_content w) as [raw|e];
      [destruct (json_loads X raw)|]; cbn [snd]; rewrite requests_add_events; done.
  - rewrite analyze_risk_no_key by done. cbn [snd]. rewrite requests_add_events. done.
Qed.

(** X4. With the credential set, [generate_report_narrative] changes
    nothing but the trace (environment, files and session store stay as they
    are), and it sends exactly one request to the model, through a client
    that carries that credential. *)
Theorem generate_report_narrative_frame (text_content risks_data : value) (w : World) :
  has_api_key w = true ->
  let w' := snd (generate_report_narrative X text_content risks_data w) in
  environ w' = environ w /\ files w' = files w /\ dirs w' = dirs w
  /\ session_state w' = session_state w
  /\ exists key,
       environ w !! "GOOGLE_API_KEY" = Some key /\ key <> ""
       /\ requests (trace w')
          = (requests (trace w)
             ++ [Request {| model := default "gemini-flash-latest" (environ w !! "MODELAI");
                            temperature := 5 # 10;
                            google_api_key := Some key |}
                   (narrative_prompt X text_content risks_data)])%list.
Proof.
  intros Hkey. cbv zeta. rewrite generate_report_narrative_spec.
  unfold has_api_key in Hkey. unfold narrative_llm.
  destruct (environ w !! "GOOGLE_API_KEY") as [key|]; [|discriminate].
  assert (Hne : key <> "") by (intros ->; discriminate).
  destruct (narrative_reply X text_content risks_data w);
    cbn [snd]; rewrite requests_add_events; split_and!; try done; by exists key.
Qed.

End Narrative.

(** ** The home page *)

Ltac split_step :=
  match goal with
  | |- context [match session_state ?w !! ?k with _ => _ end] =>
      destruct (session_state w !! k) eqn:?
  | |- context [if truthy ?v then _ else _] => destruct (truthy v) eqn:?
  | |- context [lift_result (pd_DataFrame ?X ?v)] => destruct (pd_DataFrame X v) eqn:?
  end.

Ltac crunch := repeat (exec_store; try split_step).

Ltac same_requests :=
  cbn [trace add_events set_session set_files];
  rewrite ?requests_app; cbn [requests List.filter is_request];
  rewrite ?app_nil_r; try reflexivity.

Ltac in_trace :=
  cbn [trace add_events set_session set_files];
  rewrite ?elem_of_app, ?elem_of_cons; tauto.

Section Home.

Variable X : Externals.

(** X5. Pressing the assessment button with no file in the uploader warns
    the user and does nothing else: store, files and environment are as
    before and nothing is sent to the model. *)
Theorem home_assess_without_file (ws : Widgets) (w : World) :
  clicked ws = Some BtnAssess ->
  file_uploader ws = None ->
  let w' := snd (render_home_page X ws w) in
  session_state w' = session_state w /\ files w' = files w /\ environ w' = environ w
  /\ requests (trace w') = requests (trace w)
  /\ Ui (StWarning "Please upload a DOCX file first.") ∈ trace w'.
Proof.
  intros Hclick Hfile. cbv zeta. unfold render_home_page, bind.
  exec. rewrite (bool_decide_eq_true_2 (Some BtnAssess = Some BtnAssess)) by done.
  rewrite (bool_decide_eq_false_2 (Some BtnAssess = Some BtnGenerate)) by done.
  crunch; cbn [snd]; (repeat split; [done..|same_requests|in_trace]).
Qed.

(** X6. When the parser fails on the copy of the upload, or yields no
    document, the home page shows the error text to the user and keeps the
    session store as it was; the temporary file is gone and nothing is sent
    to the model. *)
Theorem home_extraction_failure (ws : Widgets) (w : World) (f : UploadedFile) (e : exn) :
  clicked ws = Some BtnAssess ->
  file_uploader ws = Some f ->
  file_write X (temp_path f) (getbuffer f) = Written ->
  docx2txt X (getbuffer f) = Fail e
  \/ (docx2txt X (getbuffer f) = Ok [] /\ e = Exception "list index out of range") ->
  let w' := snd (render_home_page X ws w) in
  session_state w' = session_state w
  /\ files w' = delete (temp_path f) (files w)
  /\ requests (trace w') = requests (trace w)
  /\ Log ERROR ("Error loading document: " +:+ str_exn e) ∈ trace w'
  /\ Ui (StError ("An error occurred: " +:+ str_exn e)) ∈ trace w'.
Proof.
  intros Hclick Hfile Hwrite Hfail. cbv zeta. unfold render_home_page, bind, try_except.
  exec. rewrite (bool_decide_eq_true_2 (Some BtnAssess = Some BtnAssess)) by done.
  rewrite (bool_decide_eq_false_2 (Some BtnAssess = Some BtnGenerate)) by done.
  exec. rewrite load_docx_spec by done.
  destruct Hfail as [Hdoc|[Hdoc ->]]; rewrite Hdoc;
    crunch; cbn [snd]; (repeat split; [done..|same_requests|in_trace|in_trace]).
Qed.

(** The store after an assessment of an upload with no text in it. *)
Lemma home_page_empty_text (ws : Widgets) (w : World) (f : UploadedFile)
    (d : Document) (ds : list Document) :
  clicked ws = Some BtnAssess ->
  file_uploader ws = Some f ->
  file_write X (temp_path f) (getbuffer f) = Written ->
  docx2txt X (getbuffer f) = Ok (d :: ds) ->
  page_content d = "" ->
  let w' := snd (render_home_page X ws w) in
  session_state w' = <["original_text" := VStr ""]> (session_state w)
  /\ requests (trace w') = requests (trace w)
  /\ Ui (StError "Could not extract text from the document.") ∈ trace w'.
Proof.
  intros Hclick Hfile Hwrite Hdoc Htext. cbv zeta.
  unfold render_home_page, bind, try_except.
  exec. rewrite (bool_decide_eq_true_2 (Some BtnAssess = Some BtnAssess)) by done.
  rewrite (bool_decide_eq_false_2 (Some BtnAssess = Some BtnGenerate)) by done.
  exec. rewrite load_docx_spec by done. rewrite Hdoc. exec.
  cbn [str_truthy String.eqb negb].
  crunch; cbn [snd]; (repeat split; [done..|same_requests|in_trace]).
Qed.

(** X7. When the text extracted from the copy of the upload is empty, the
    home page
    reports that no text could be extracted and overwrites [original_text]
    with the empty string; [risk_data] and [full_report_md] of an earlier
    assessment stay in the store, and nothing is sent to the model. *)
Theorem home_empty_text_keeps_risk_data (ws : Widgets) (w : World) (f : UploadedFile)
    (d : Document) (ds : list Document) :
  clicked ws = Some BtnAssess ->
  file_uploader ws = Some f ->
  file_write X (temp_path f) (getbuffer f) = Written ->
  docx2txt X (getbuffer f) = Ok (d :: ds) ->
  page_content d = "" ->
  let w' := snd (render_home_page X ws w) in
  session_state w' !! "original_text" = Some (VStr "")
  /\ session_state w' !! "risk_data" = session_state w !! "risk_data"
  /\ session_state w' !! "full_report_md" = session_state w !! "full_report_md"
  /\ requests (trace w') = requests (trace w)
  /\ Ui (StError "Could not extract text from the document.") ∈ trace w'.
Proof.
  intros Hclick Hfile Hwrite Hdoc Htext.
  destruct (home_page_empty_text ws w f d ds) as (Hstore & Hreq & Herr); try done.
  cbv zeta. rewrite Hstore. repeat split; try done.
  - apply lookup_insert_eq.
  - by rewrite lookup_insert_ne.
  - by rewrite lookup_insert_ne.
Qed.

(** X8. After such an assessment of an empty document the report page has
    nothing to show: although the risk data of the earlier assessment is
    still in the store, it draws the back button and the "no data" error,
    and sends nothing to the model. *)
Theorem empty_document_hides_report (ws : Widgets) (w : World) (f : UploadedFile)
    (d : Document) (ds : list Document) (rd : value) :
  clicked ws = Some BtnAssess ->
  file_uploader ws = Some f ->
  file_write X (temp_path f) (getbuffer f) = Written ->
  docx2txt X (getbuffer f) = Ok (d :: ds) ->
  page_content d = "" ->
  session_state w !! "risk_data" = Some rd ->
  let w' := snd (render_home_page X ws w) in
  session_state w' !! "risk_data" = Some rd
  /\ render_report_page X w' =
     (Return tt,
      add_events [Ui (StButton BtnBack);
                  Ui (StError "No data available. Please perform an assessment first.")] w').
Proof.
  intros Hclick Hfile Hwrite Hdoc Htext Hrd.
  destruct (home_page_empty_text ws w f d ds) as (Hstore & _); try done.
  cbv zeta.
  assert (Hrd' : session_state (snd (render_home_page X ws w)) !! "risk_data" = Some rd).
  { rewrite Hstore. by rewrite lookup_insert_ne. }
  split; [exact Hrd'|].
  apply (report_page_no_text X _ rd (VStr "")); [exact Hrd'| |done].
  rewrite Hstore. apply lookup_insert_eq.
Qed.

End Home.

(** ** Data that pandas rejects, and failed narratives *)

Section Tables.

Variable X : Externals.

(** X9. The table on the home page is built outside any [try]: when the
    stored risk data is not empty and [pd.DataFrame] rejects it, rendering
    the home page raises that error after the success message, with the
    store untouched and none of the results, download or report buttons
    drawn. *)
Theorem home_page_table_failure (ws : Widgets) (w : World) (rd : value) (e : exn) :
  clicked ws <> Some BtnAssess ->
  session_state w !! "risk_data" = Some rd ->
  truthy rd = true ->
  pd_DataFrame X rd = Fail e ->
  render_home_page X ws w =
  (Raise e,
   add_events [Ui (StHtml HtmlHeader); Ui StFileUploader; Ui (StButton BtnAssess);
               Ui (StSuccess "Assessment Complete!")] w).
Proof.
  intros Hclick Hrd Trd Hdf. unfold render_home_page, bind.
  exec. rewrite (bool_decide_eq_false_2 (clicked ws = Some BtnAssess)) by done.
  exec. tidy_world.
Qed.

(** The report page when the table cannot be built. *)
Lemma report_page_table_failure (w : World) (rd ot : value) (e : exn) :
  has_data w rd ot ->
  session_state w !! "full_report_md" = None ->
  pd_DataFrame X rd = Fail e ->
  render_report_page X w = (Raise e, add_events (narrative_events X ot rd w) w).
Proof.
  intros Hdata Hnone Hdf.
  rewrite (report_page_first X w rd ot) by eauto. cbv zeta.
  unfold assemble_report. by rewrite Hdf.
Qed.

(** X10. On the report page the table is built after the narrative and
    outside any [try]: when [pd.DataFrame] rejects the risk data, the
    rendering raises that error after its request to the model and stores no
    report, so that the next rendering does the same and sends one more
    request. *)
Theorem report_page_table_failure_repeats (w : World) (rd ot : value) (e : exn) :
  has_data w rd ot ->
  session_state w !! "full_report_md" = None ->
  pd_DataFrame X rd = Fail e ->
  let w1 := snd (render_report_page X w) in
  let w2 := snd (render_report_page X w1) in
  fst (render_report_page X w) = Raise e
  /\ fst (render_report_page X w1) = Raise e
  /\ session_state w2 = session_state w
  /\ length (requests (trace w1)) = S (length (requests (trace w)))
  /\ length (requests (trace w2)) = S (S (length (requests (trace w)))).
Proof.
  intros Hdata Hnone Hdf. cbv zeta.
  rewrite (report_page_table_failure w rd ot e) by done. cbn [fst snd].
  rewrite (report_page_table_failure (add_events _ w) rd ot e) by done. cbn [fst snd].
  repeat split.
  - rewrite requests_add_events, length_app, length_requests_narrative_events. lia.
  - rewrite !requests_add_events, !length_app, !length_requests_narrative_events. lia.
Qed.

(** X11. A failed narrative is memoized like any other: when the call to the
    model fails on the first rendering of the report, the report stored in
    [full_report_md] is the placeholder followed by the heading and the
    table, and the page shows it. *)
Theorem failed_narrative_is_memoized (w : World) (rd ot : value) (e : exn)
    (df : DataFrame) (html_text : string) :
  has_data w rd ot ->
  session_state w !! "full_report_md" = None ->
  narrative_reply X ot rd w = Fail e ->
  pd_DataFrame X rd = Ok df ->
  let report := "Error generating report narrative." +:+ LF +:+ LF +:+
                "## Risk Assessment" +:+ LF +:+ LF +:+ to_markdown X df in
  markdown_markdown X (VStr report) = Ok html_text ->
  let w' := snd (render_report_page X w) in
  fst (render_report_page X w) = Return tt
  /\ session_state w' = <["full_report_md" := VStr report]> (session_state w)
  /\ Ui (StMarkdown (VStr report)) ∈ trace w'
  /\ Log ERROR ("Error generating report narrative: " +:+ str_exn e) ∈ trace w'.
Proof.
  intros Hdata Hnone Hreply Hdf report Hhtml. cbv zeta.
  rewrite (report_page_first X w rd ot) by eauto. cbv zeta.
  unfold assemble_report, narrative_events. rewrite Hreply, Hdf.
  cbn [narrative_of]. fold report. rewrite Hhtml. cbn [fst snd].
  repeat split; unfold report_view; in_trace.
Qed.

(** X12. The PDF column of the report page: when the conversion reports an
    error the page logs it and shows "Failed to generate PDF."; when it
    reports none but wrote no bytes the page shows the same message without
    a log record; otherwise it offers the bytes for download.  Exactly one of
    the message and the download button is drawn. *)
Theorem report_page_pdf_column (w : World) (rd ot full : value) (html_text bytes : string)
    (err : Z) :
  has_data w rd ot ->
  memoized X w full html_text ->
  pisa_CreatePDF X (html_with_style html_text) = (bytes, err) ->
  render_report_page X w =
  (Return tt,
   add_events
     ([Ui (StButton BtnBack); Ui (StMarkdown full); Ui (StColumns 2);
       Ui (StDownloadButton DlMarkdown full)]
      ++ if negb (err =? 0)%Z then
           [Log ERROR ("PDF generation error: " +:+ pretty err);
            Ui (StError "Failed to generate PDF.")]
         else if String.eqb bytes "" then [Ui (StError "Failed to generate PDF.")]
         else [Ui (StDownloadButton DlPdf (VBytes bytes))]) w).
Proof.
  intros Hdata (Hfull & Nfull & Hhtml) Hpdf.
  rewrite (report_page_shown X w rd ot full) by done. rewrite Hhtml.
  unfold report_view, pdf_log_of, pdf_bytes_of. rewrite Hpdf.
  destruct (err =? 0)%Z; cbn [negb truthy app]; [|reflexivity].
  destruct (String.eqb bytes ""); reflexivity.
Qed.

End Tables.

(** ** Navigation *)

Section Routing.

Variable X : Externals.

(** X13. The home page changes the page only through the report button:
    whatever else happens on it (an assessment that succeeds or fails, a
    table that cannot be built), [page] is afterwards what it was. *)
Theorem home_page_keeps_page (ws : Widgets) (w : World) :
  clicked ws <> Some BtnGenerate ->
  session_state (snd (render_home_page X ws w)) !! "page" = session_state w !! "page".
Proof.
  intros Hclick.
  destruct (decide (clicked ws = Some BtnAssess)) as [Hassess|Hassess].
  - destruct (file_uploader ws) as [f|] eqn:Hfile.
    + destruct (file_write X (temp_path f) (getbuffer f)) as [|e|partial e] eqn:Hwrite.
      * destruct (docx2txt X (getbuffer f)) as [[|d ds]|e] eqn:Hdoc;
          [| destruct (str_truthy (page_content d)) eqn:Htext |].
        -- unfold render_home_page, bind, try_except. exec.
           rewrite (bool_decide_eq_true_2 (Some BtnAssess = Some BtnAssess)) by done.
           rewrite (bool_decide_eq_false_2 (Some BtnAssess = Some BtnGenerate)) by done.
           exec. rewrite load_docx_spec, Hdoc by done. crunch; cbn [snd]; done.
        -- destruct (home_page_assessment X ws w f d ds) as (r & w' & Hrun & Hstore);
             try done.
           rewrite Hrun. cbn [snd]. rewrite Hstore.
           by rewrite lookup_delete_ne, !lookup_insert_ne.
        -- unfold render_home_page, bind, try_except. exec.
           rewrite (bool_decide_eq_true_2 (Some BtnAssess = Some BtnAssess)) by done.
           rewrite (bool_decide_eq_false_2 (Some BtnAssess = Some BtnGenerate)) by done.
           exec. rewrite load_docx_spec, Hdoc by done. exec. crunch; cbn [snd];
             by rewrite ?lookup_insert_ne.
        -- unfold render_home_page, bind, try_except. exec.
           rewrite (bool_decide_eq_true_2 (Some BtnAssess = Some BtnAssess)) by done.
           rewrite (bool_decide_eq_false_2 (Some BtnAssess = Some BtnGenerate)) by done.
           exec. rewrite load_docx_spec, Hdoc by done. crunch; cbn [snd]; done.
      * unfold render_home_page, bind, try_except. exec.
        rewrite (bool_decide_eq_true_2 (Some BtnAssess = Some BtnAssess)) by done.
        rewrite (bool_decide_eq_false_2 (Some BtnAssess = Some BtnGenerate)) by done.
        exec. rewrite (load_docx_open_failed X f _ e) by done. crunch; cbn [snd]; done.
      * unfold render_home_page, bind, try_except. exec.
        rewrite (bool_decide_eq_true_2 (Some BtnAssess = Some BtnAssess)) by done.
        rewrite (bool_decide_eq_false_2 (Some BtnAssess = Some BtnGenerate)) by done.
        exec. rewrite (load_docx_write_failed X f _ partial e) by done.
        crunch; cbn [snd]; done.
    + unfold render_home_page, bind. exec.
      rewrite (bool_decide_eq_true_2 (Some BtnAssess = Some BtnAssess)) by done.
      rewrite (bool_decide_eq_false_2 (Some BtnAssess = Some BtnGenerate)) by done.
      crunch; cbn [snd]; done.
  - unfold render_home_page, bind. exec.
    rewrite (bool_decide_eq_false_2 (clicked ws = Some BtnAssess)) by done.
    rewrite (bool_decide_eq_false_2 (clicked ws = Some BtnGenerate)) by done.
    crunch; cbn [snd]; done.
Qed.

(** The report page leaves the store as it is or adds the report to it. *)
Lemma report_page_store (w : World) :
  session_state (snd (render_report_page X w)) = session_state w
  \/ exists report,
       session_state (snd (render_report_page X w))
       = <["full_report_md" := VStr report]> (session_state w).
Proof.
  destruct (session_state w !! "risk_data") as [rd|] eqn:Hrd;
    [|unfold render_report_page, bind; exec; by left].
  destruct (truthy rd) eqn:Trd;
    [|rewrite (report_page_no_data X w rd) by done; by left].
  destruct (session_state w !! "original_text") as [ot|] eqn:Hot;
    [|unfold render_report_page, bind; exec; by left].
  destruct (truthy ot) eqn:Tot;
    [|rewrite (report_page_no_text X w rd ot) by done; by left].
  assert (Hdata : has_data w rd ot) by done.
  assert (Hfirst : session_state w !! "full_report_md" = None
                   \/ session_state w !! "full_report_md" = Some VNone ->
                   session_state (snd (render_report_page X w)) = session_state w
                   \/ exists report,
                        session_state (snd (render_report_page X w))
                        = <["full_report_md" := VStr report]> (session_state w)).
  { intros Hstale. rewrite (report_page_first X w rd ot) by done. cbv zeta.
    destruct (assemble_report X _ rd) as [report|e]; [|by left].
    right. exists report. by destruct (markdown_markdown X (VStr report)). }
  destruct (session_state w !! "full_report_md") as [full|] eqn:Hfull;
    [destruct (is_None full) eqn:Nfull|].
  - destruct full; try discriminate. apply Hfirst. by right.
  - rewrite (report_page_shown X w rd ot full) by done.
    left. by destruct (markdown_markdown X full).
  - apply Hfirst. by left.
Qed.

(** The run of the script in which the report button is pressed. *)
Lemma main_home_generate (ws : Widgets) (w : World) (rd : value) (df : DataFrame) :
  "healthz" ∉ dom (query_params ws) ->
  clicked ws = Some BtnGenerate ->
  session_state w !! "page" = Some (VStr "home") ->
  session_state w !! "risk_data" = Some rd ->
  truthy rd = true ->
  pd_DataFrame X rd = Ok df ->
  exists w1,
    main X ws w = (Rerun, w1)
    /\ session_state w1 !! "page" = Some (VStr "report")
    /\ session_state w1 !! "risk_data" = Some rd
    /\ is_Some (session_state w1 !! "original_text")
    /\ requests (trace w1) = requests (trace w)
    /\ Ui (StButton BtnGenerate) ∈ trace w1.
Proof.
  intros Hq Hclick Hpage Hrd Trd Hdf. unfold main, bind. run_script.
  rewrite (bool_decide_eq_false_2 _ Hq). unfold render_home_page, bind.
  destruct (session_state w !! "original_text") as [ot|] eqn:Hot; exec_store;
    rewrite (bool_decide_eq_false_2 (Some BtnGenerate = Some BtnAssess)) by done;
    exec_store;
    rewrite (bool_decide_eq_true_2 (Some BtnGenerate = Some BtnGenerate)) by done;
    exec_store; eexists; (split; [reflexivity|]);
    cbn [session_state set_session add_events];
    rewrite ?lookup_insert_eq, ?lookup_insert_ne by done;
    (split_and!;
       [done|done|by (rewrite ?Hot, ?lookup_insert_eq; eexists)|same_requests|in_trace]).
Qed.

(** The run of the script on the report page. *)
Lemma main_report (ws : Widgets) (w : World) :
  "healthz" ∉ dom (query_params ws) ->
  session_state w !! "page" = Some (VStr "report") ->
  is_Some (session_state w !! "risk_data") ->
  is_Some (session_state w !! "original_text") ->
  main X ws w =
  render_report_page X
    (add_events [Log INFO "Application starting..."; Log INFO "Application starting...";
                 Ui StSetPageConfig; Ui (StHtml HtmlStyle)] w).
Proof.
  intros Hq Hpage [rd Hrd] [ot Hot]. unfold main, bind. run_script.
  rewrite (bool_decide_eq_false_2 _ Hq). exec_store. tidy_world.
Qed.

(** X14. Pressing the report button on the home page, which is drawn when
    the stored risk data is not empty and its table can be built, switches
    to the report page within the same interaction: the script sets [page]
    to [report], asks for a rerun, and the rerun renders the report page. *)
Theorem generate_button_opens_report (ws : Widgets) (w : World) (rd : value)
    (df : DataFrame) :
  "healthz" ∉ dom (query_params ws) ->
  clicked ws = Some BtnGenerate ->
  session_state w !! "page" = Some (VStr "home") ->
  session_state w !! "risk_data" = Some rd ->
  truthy rd = true ->
  pd_DataFrame X rd = Ok df ->
  let w' := snd (interaction X ws w) in
  session_state w' !! "page" = Some (VStr "report")
  /\ session_state w' !! "risk_data" = Some rd
  /\ Ui (StButton BtnGenerate) ∈ trace w'
  /\ Ui (StButton BtnBack) ∈ trace w'.
Proof.
  intros Hq Hclick Hpage Hrd Trd Hdf. cbv zeta. unfold interaction.
  rewrite (bool_decide_eq_false_2 (clicked ws = Some BtnBack)) by (by rewrite Hclick).
  destruct (main_home_generate ws w rd df) as (w1 & Hrun & Hpage1 & Hrd1 & Hot1 & _ & Hbtn);
    try done.
  rewrite Hrun. rewrite main_report; [|done..|by eexists|done].
  set (w2 := add_events _ w1).
  destruct (report_page_back_button X w2) as (evs & Htrace).
  assert (Hkeep : forall k, k <> "full_report_md" ->
            session_state (snd (render_report_page X w2)) !! k = session_state w1 !! k).
  { intros k Hk. destruct (report_page_store w2) as [->|[report ->]]; [done|].
    by rewrite lookup_insert_ne. }
  repeat split.
  - by rewrite Hkeep.
  - by rewrite Hkeep.
  - rewrite Htrace. unfold w2. cbn [trace add_events].
    rewrite !elem_of_app. by do 2 left.
  - rewrite Htrace. rewrite elem_of_app, elem_of_cons. right. by left.
Qed.

(** X15. Without risk data there is no way from the home page to the report
    page: the report button is not drawn, and whatever button the
    interaction claims, short of a new assessment, the session stays on the
    home page. *)
Theorem no_report_without_risk_data (ws : Widgets) (w : World) (rd : value) :
  clicked ws <> Some BtnAssess ->
  session_state w !! "page" = Some (VStr "home") ->
  session_state w !! "risk_data" = Some rd ->
  truthy rd = false ->
  let w' := snd (interaction X ws w) in
  fst (interaction X ws w) = Return tt
  /\ session_state w' !! "page" = Some (VStr "home")
  /\ exists evs, trace w' = (trace w ++ evs)%list /\ Ui (StButton BtnGenerate) ∉ evs.
Proof.
  intros Hclick Hpage Hrd Trd. cbv zeta. unfold interaction.
  assert (Hmain : forall w0,
            trace w0 = trace w ->
            session_state w0 !! "page" = Some (VStr "home") ->
            session_state w0 !! "risk_data" = Some rd ->
            exists evs,
              main X ws w0 =
              (Return tt, snd (main X ws w0))
              /\ session_state (snd (main X ws w0)) !! "page" = Some (VStr "home")
              /\ trace (snd (main X ws w0)) = (trace w ++ evs)%list
              /\ Ui (StButton BtnGenerate) ∉ evs).
  { intros w0 Htr Hpage0 Hrd0. unfold main, bind. run_script.
    destruct (bool_decide ("healthz" ∈ dom (query_params ws))); run_script.
    - eexists. split; [reflexivity|]. split; [done|]. cbn [snd trace add_events].
      rewrite Htr, <- app_assoc. split; [reflexivity|]. cbn [app].
      rewrite !not_elem_of_cons. repeat split; try done. apply not_elem_of_nil.
    - unfold render_home_page, bind.
      destruct (session_state w0 !! "original_text") as [ot|] eqn:Hot; exec_store;
        rewrite (bool_decide_eq_false_2 (clicked ws = Some BtnAssess)) by done;
        exec_store; eexists; (split; [reflexivity|]); cbn [snd];
        (split; [cbn; by rewrite ?lookup_insert_ne|]);
        cbn [trace add_events set_session]; rewrite ?Htr, <- !app_assoc; cbn [app];
        (split; [reflexivity|]);
        rewrite !not_elem_of_cons; repeat split; try done; apply not_elem_of_nil. }
  case_bool_decide as Hback.
  - destruct (Hmain (snd (back_on_click w))) as (evs & Hrun & Hhome & Htr & Hbtn).
    + done.
    + cbn. apply lookup_insert_eq.
    + cbn. by rewrite lookup_insert_ne.
    + rewrite Hrun. cbn [fst snd]. eauto.
  - destruct (Hmain w) as (evs & Hrun & Hhome & Htr & Hbtn); try done.
    rewrite Hrun. cbn [fst snd]. eauto.
Qed.

End Routing.

(** ** Session set-up, and uploads that cannot be saved *)

Section Setup.

Variable X : Externals.

Lemma session_state_set_session (f : gmap string value -> gmap string value) (w : World) :
  session_state (set_session f w) = f (session_state w).
Proof. reflexivity. Qed.

Lemma session_state_add_events (evs : list event) (w : World) :
  session_state (add_events evs w) = session_state w.
Proof. reflexivity. Qed.

Ltac exec_session :=
  repeat (progress (exec_store;
                    rewrite ?session_state_set_session, ?session_state_add_events)).

Lemma home_page_idle (ws : Widgets) (w : World) :
  clicked ws = None ->
  session_state (snd (render_home_page X ws w)) = session_state w.
Proof.
  intros Hclick. unfold render_home_page, bind. exec.
  rewrite (bool_decide_eq_false_2 (None = Some BtnAssess)) by done.
  rewrite (bool_decide_eq_false_2 (None = Some BtnGenerate)) by done.
  crunch; cbn [snd]; done.
Qed.

(** A run of the script sets up the session and hands over to the page. *)
Lemma main_routes (ws : Widgets) (w : World) :
  "healthz" ∉ dom (query_params ws) ->
  let page := default (VStr "home") (session_state w !! "page") in
  exists w0,
    main X ws w =
    (if is_str "home" page then render_home_page X ws w0
     else if is_str "report" page then render_report_page X w0
     else (Return tt, w0))
    /\ session_state w0 !! "page" = Some page
    /\ session_state w0 !! "risk_data" = Some (default VNone (session_state w !! "risk_data"))
    /\ session_state w0 !! "original_text"
       = Some (default VNone (session_state w !! "original_text")).
Proof.
  intros Hq. cbv zeta. unfold main, bind. run_script.
  rewrite (bool_decide_eq_false_2 _ Hq).
  destruct (session_state w !! "page") as [page|] eqn:Hpage;
    destruct (session_state w !! "risk_data") as [rd|] eqn:Hrd;
    destruct (session_state w !! "original_text") as [ot|] eqn:Hot;
    cbn [default from_option id]; eexists;
    (split;
     [exec_store;
      try (destruct (is_str "home" page) eqn:?; [reflexivity|]; exec_store;
           destruct (is_str "report" page) eqn:?);
      reflexivity
     |cbn [session_state set_session add_events]; split_and!;
      repeat first [rewrite lookup_insert_eq | rewrite lookup_insert_ne by done];
      done]).
Qed.

(** X16. A run of the script with no button pressed leaves the session with
    [page], [risk_data] and [original_text] all set: a key that was missing
    gets its default ([home], [None], [None]) and a key that was there keeps
    its value. *)
Theorem main_initialises_session (ws : Widgets) (w : World) :
  "healthz" ∉ dom (query_params ws) ->
  clicked ws = None ->
  let w' := snd (main X ws w) in
  session_state w' !! "page" = Some (default (VStr "home") (session_state w !! "page"))
  /\ session_state w' !! "risk_data" = Some (default VNone (session_state w !! "risk_data"))
  /\ session_state w' !! "original_text"
     = Some (default VNone (session_state w !! "original_text")).
Proof.
  intros Hq Hclick. cbv zeta.
  destruct (main_routes ws w Hq) as (w0 & -> & Hpage & Hrd & Hot).
  assert (Hkeep : forall k, k <> "full_report_md" ->
            session_state
              (snd (if is_str "home" (default (VStr "home") (session_state w !! "page"))
                    then render_home_page X ws w0
                    else if is_str "report" (default (VStr "home") (session_state w !! "page"))
                         then render_report_page X w0
                         else (Return tt, w0))) !! k
            = session_state w0 !! k).
  { intros k Hk. destruct (is_str "home" _).
    - by rewrite home_page_idle.
    - destruct (is_str "report" _); [|done].
      destruct (report_page_store X w0) as [->|[report ->]]; [done|].
      by rewrite lookup_insert_ne. }
  by rewrite !Hkeep.
Qed.

(** X17. The copy of the upload is written before [load_docx] enters its
    [try]: when it cannot be written, the exception reaches the home page,
    which shows it to the user.  The parser is not started, nothing is sent
    to the model and the session store is as before.  When [open] failed no
    file has changed; when the write failed after [open], the file it
    created is left at the temporary path. *)
Theorem home_write_failure (ws : Widgets) (w : World) (f : UploadedFile) (e : exn) :
  clicked ws = Some BtnAssess ->
  file_uploader ws = Some f ->
  file_write X (temp_path f) (getbuffer f) = OpenFailed e
  \/ (exists partial, file_write X (temp_path f) (getbuffer f) = WriteFailed partial e) ->
  let w' := snd (render_home_page X ws w) in
  session_state w' = session_state w
  /\ requests (trace w') = requests (trace w)
  /\ files w' = match file_write X (temp_path f) (getbuffer f) with
                | WriteFailed partial _ => <[temp_path f := partial]> (files w)
                | _ => files w
                end
  /\ Ui (StError ("An error occurred: " +:+ str_exn e)) ∈ trace w'
  /\ exists evs,
       trace w' = (trace w ++ evs)%list
       /\ Log INFO "Loading document content..." ∉ evs.
Proof.
  intros Hclick Hfile Hfail. cbv zeta. unfold render_home_page, bind, try_except.
  exec. rewrite (bool_decide_eq_true_2 (Some BtnAssess = Some BtnAssess)) by done.
  rewrite (bool_decide_eq_false_2 (Some BtnAssess = Some BtnGenerate)) by done.
  exec.
  destruct Hfail as [Hwrite|[partial Hwrite]];
    [rewrite (load_docx_open_failed X f _ e) by done
    |rewrite (load_docx_write_failed X f _ partial e) by done];
    rewrite Hwrite;
    crunch; cbn [snd];
    (split_and!; [done|same_requests|done|in_trace|]);
    (eexists; cbn [trace add_events set_session set_files]; rewrite <- ?app_assoc;
     cbn [app]; (split; [reflexivity|]);
     rewrite !not_elem_of_cons; split_and!; try done; apply not_elem_of_nil).
Qed.

End Setup.

(** ** Instances of the further properties *)

Lemma home_assess_without_file_witness :
  session_state
    (snd (render_home_page fenced_model (press (Some BtnAssess) None) home_with_report))
  = session_state home_with_report
  /\ Ui (StWarning "Please upload a DOCX file first.")
     ∈ trace (snd (render_home_page fenced_model (press (Some BtnAssess) None)
                     home_with_report)).
Proof.
  pose proof (home_assess_without_file fenced_model (press (Some BtnAssess) None)
                home_with_report eq_refl eq_refl) as H.
  cbv zeta in H. destruct H as (Hstore & _ & _ & _ & Hwarn). by split.
Defined.

Lemma home_extraction_failure_witness :
  session_state
    (snd (render_home_page fenced_model (press (Some BtnAssess) (Some empty_upload))
            home_with_report))
  = session_state home_with_report
  /\ Ui (StError "An error occurred: File is not a zip file")
     ∈ trace (snd (render_home_page fenced_model
                     (press (Some BtnAssess) (Some empty_upload)) home_with_report)).
Proof.
  pose proof (home_extraction_failure fenced_model
                (press (Some BtnAssess) (Some empty_upload)) home_with_report empty_upload
                (Exception "File is not a zip file") eq_refl eq_refl eq_refl
                (or_introl eq_refl)) as H.
  cbv zeta in H. destruct H as (Hstore & _ & _ & _ & Herr). by split.
Defined.

Lemma home_empty_text_keeps_risk_data_witness :
  session_state
    (snd (render_home_page blank_model (press (Some BtnAssess) (Some sample_upload))
            home_with_report)) !! "original_text" = Some (VStr "")
  /\ session_state
       (snd (render_home_page blank_model (press (Some BtnAssess) (Some sample_upload))
               home_with_report)) !! "full_report_md" = Some (VStr "old report").
Proof.
  pose proof (home_empty_text_keeps_risk_data blank_model
                (press (Some BtnAssess) (Some sample_upload)) home_with_report
                sample_upload {| page_content := "" |} [] eq_refl eq_refl eq_refl eq_refl
                eq_refl)
    as H.
  cbv zeta in H. destruct H as (Htext & _ & Hfull & _). split; [exact Htext|].
  rewrite Hfull. reflexivity.
Defined.

Lemma empty_document_hides_report_witness :
  fst (render_report_page blank_model
         (snd (render_home_page blank_model (press (Some BtnAssess) (Some sample_upload))
                 home_with_report)))
  = Return tt
  /\ session_state
       (snd (render_home_page blank_model (press (Some BtnAssess) (Some sample_upload))
               home_with_report)) !! "risk_data"
     = Some (VList [VDict reordered_record]).
Proof.
  pose proof (empty_document_hides_report blank_model
                (press (Some BtnAssess) (Some sample_upload)) home_with_report
                sample_upload {| page_content := "" |} [] (VList [VDict reordered_record])
                eq_refl eq_refl eq_refl eq_refl eq_refl eq_refl) as H.
  cbv zeta in H. destruct H as (Hrd & Hpage). split; [|exact Hrd].
  by rewrite Hpage.
Defined.

Lemma home_page_table_failure_witness :
  fst (render_home_page odd_model (press None None) (odd_store "home"))
  = Raise (Exception "DataFrame constructor not properly called!").
Proof.
  rewrite (home_page_table_failure odd_model (press None None) (odd_store "home")
             (VDict [("Threat Type", VStr "Phishing")])
             (Exception "DataFrame constructor not properly called!"));
    [reflexivity|discriminate|reflexivity..].
Defined.

Lemma report_page_table_failure_repeats_witness :
  fst (render_report_page odd_model (odd_store "report"))
  = Raise (Exception "DataFrame constructor not properly called!")
  /\ length (requests (trace (snd (render_report_page odd_model
                                     (snd (render_report_page odd_model
                                             (odd_store "report")))))))
     = 2%nat.
Proof.
  pose proof (report_page_table_failure_repeats odd_model (odd_store "report")
                (VDict [("Threat Type", VStr "Phishing")]) (VStr sample_text)
                (Exception "DataFrame constructor not properly called!")) as H.
  cbv zeta in H. destruct H as (Hfirst & _ & _ & _ & Hcount).
  - repeat split; reflexivity.
  - reflexivity.
  - reflexivity.
  - split; [exact Hfirst|exact Hcount].
Defined.

Lemma failed_narrative_is_memoized_witness :
  session_state (snd (render_report_page unreachable_model report_ready)) !! "full_report_md"
  = Some (VStr ("Error generating report narrative." +:+ LF +:+ LF +:+
                "## Risk Assessment" +:+ LF +:+ LF +:+
                "| Feature Name | Threat Type | Description | Risk | Recommendation | Risk Level |")).
Proof.
  pose proof (failed_narrative_is_memoized unreachable_model report_ready
                (VList [VDict sample_record]) (VStr sample_text)
                (Exception "503 Service Unavailable")
                (frame_of_records [sample_record])) as H.
  cbv zeta in H. edestruct H as (_ & Hstore & _).
  - repeat split; reflexivity.
  - reflexivity.
  - reflexivity.
  - reflexivity.
  - vm_compute. reflexivity.
  - rewrite Hstore. rewrite lookup_insert_eq. vm_compute. reflexivity.
Defined.

Lemma report_page_pdf_column_witness :
  render_report_page fenced_model report_shown =
  (Return tt,
   add_events
     [Ui (StButton BtnBack); Ui (StMarkdown (VStr "# Security Assessment Report"));
      Ui (StColumns 2);
      Ui (StDownloadButton DlMarkdown (VStr "# Security Assessment Report"));
      Ui (StDownloadButton DlPdf (VBytes "%PDF-1.4"))] report_shown).
Proof.
  rewrite (report_page_pdf_column fenced_model report_shown
             (VList [VDict sample_record]) (VStr sample_text)
             (VStr "# Security Assessment Report")
             "<p># Security Assessment Report</p>" "%PDF-1.4" 0%Z).
  - reflexivity.
  - repeat split; reflexivity.
  - repeat split; reflexivity.
  - reflexivity.
Defined.

Lemma home_page_keeps_page_witness :
  session_state
    (snd (render_home_page fenced_model (press (Some BtnAssess) (Some sample_upload))
            home_with_report)) !! "page" = Some (VStr "home").
Proof.
  rewrite (home_page_keeps_page fenced_model (press (Some BtnAssess) (Some sample_upload))
             home_with_report); [reflexivity|discriminate].
Defined.

Lemma generate_button_opens_report_witness :
  session_state
    (snd (interaction fenced_model (press (Some BtnGenerate) None) home_with_report))
  !! "page" = Some (VStr "report").
Proof.
  apply (generate_button_opens_report fenced_model (press (Some BtnGenerate) None)
           home_with_report (VList [VDict reordered_record])
           (frame_of_records [reordered_record])); try reflexivity.
  cbn [query_params press]. rewrite dom_empty_L. apply not_elem_of_empty.
Defined.

Lemma no_report_without_risk_data_witness :
  session_state
    (snd (interaction fenced_model (press (Some BtnGenerate) None) home_no_data))
  !! "page" = Some (VStr "home").
Proof.
  apply (no_report_without_risk_data fenced_model (press (Some BtnGenerate) None)
           home_no_data VNone); [discriminate|reflexivity..].
Defined.

Lemma main_initialises_session_witness :
  session_state (snd (main fenced_model (press None None) (sample_world ∅ ∅))) !! "page"
  = Some (VStr "home")
  /\ session_state (snd (main fenced_model (press None None) (sample_world ∅ ∅)))
     !! "risk_data" = Some VNone.
Proof.
  pose proof (main_initialises_session fenced_model (press None None) (sample_world ∅ ∅))
    as H.
  cbv zeta in H. destruct H as (Hpage & Hrd & _).
  - cbn [query_params press]. rewrite dom_empty_L. apply not_elem_of_empty.
  - reflexivity.
  - split; [exact Hpage|exact Hrd].
Defined.

Lemma generate_report_narrative_frame_witness :
  requests (trace (snd (generate_report_narrative fenced_model (VStr sample_text)
                          (VList [VDict sample_record]) (sample_world with_key ∅))))
  = [Request {| model := "gemini-flash-latest"; temperature := 5 # 10;
                google_api_key := Some "secret" |}
       (narrative_prompt fenced_model (VStr sample_text) (VList [VDict sample_record]))].
Proof.
  pose proof (generate_report_narrative_frame fenced_model (VStr sample_text)
                (VList [VDict sample_record]) (sample_world with_key ∅) eq_refl) as H.
  cbv zeta in H. destruct H as (_ & _ & _ & _ & key & Hkey & _ & Hsent).
  rewrite Hsent. injection Hkey as <-. reflexivity.
Defined.

Lemma home_write_failure_witness :
  session_state
    (snd (render_home_page full_disk_model (press (Some BtnAssess) (Some sample_upload))
            home_with_report))
  = session_state home_with_report
  /\ files (snd (render_home_page full_disk_model
                   (press (Some BtnAssess) (Some sample_upload)) home_with_report))
     = {["temp/prd.docx" := ""]}
  /\ files (snd (render_home_page read_only_model
                   (press (Some BtnAssess) (Some sample_upload)) home_with_report))
     = ∅.
Proof.
  pose proof (home_write_failure full_disk_model
                (press (Some BtnAssess) (Some sample_upload)) home_with_report sample_upload
                (Exception "[Errno 28] No space left on device") eq_refl eq_refl
                (or_intror (ex_intro _ "" eq_refl))) as Hfull.
  pose proof (home_write_failure read_only_model
                (press (Some BtnAssess) (Some sample_upload)) home_with_report sample_upload
                (Exception "[Errno 30] Read-only file system: 'temp/prd.docx'")
                eq_refl eq_refl (or_introl eq_refl)) as Hro.
  cbv zeta in Hfull, Hro.
  destruct Hfull as (Hstore & _ & Hfiles & _). destruct Hro as (_ & _ & Hfiles' & _).
  split; [exact Hstore|]. split; [rewrite Hfiles|rewrite Hfiles']; reflexivity.
Defined.
